(** * strip-console: a line scanner that removes console statements

    Shallow embedding of [scripts/strip-console.py].

    Python strings are modelled as [string]; each [ascii] stands for one
    code point below 256.  Python integers are [Z]; the line cursor, which
    only ever counts up from zero, is a [nat].  The [while] loop of
    [remove_console_statements] is a fuelled iteration of its body, and the
    file system touched by [process_file] is a finite map from paths to
    files together with a log of the operations performed. *)

From Stdlib Require Import ZArith Lia.
From Stdlib Require String.
From stdpp Require Import base tactics option list strings gmap pretty.
From Stdlib Require Import Ascii.

Local Open Scope Z_scope.

(** ** String primitives of the Python runtime used by the script *)

Module Py.

(** [str.isspace] on one character, for code points below 256: the ASCII
    controls TAB..CR and FS..US, the space, NEL and the no-break space.
    The regular-expression class [\s] accepts the same characters. *)
Definition isspace (c : ascii) : bool :=
  let n := N_of_ascii c in
  ((9 <=? n) && (n <=? 13) || (28 <=? n) && (n <=? 32)
   || (n =? 133) || (n =? 160))%N.

Fixpoint lstrip (s : string) : string :=
  match s with
  | EmptyString => EmptyString
  | String c s' => if isspace c then lstrip s' else s
  end.

Fixpoint rstrip (s : string) : string :=
  match s with
  | EmptyString => EmptyString
  | String c s' =>
      match rstrip s' with
      | EmptyString => if isspace c then EmptyString else String c EmptyString
      | r => String c r
      end
  end.

(** [s.strip()] *)
Definition strip (s : string) : string := rstrip (lstrip s).

(** [sub in s] *)
Fixpoint contains (sub s : string) : bool :=
  String.prefix sub s
  || match s with
     | EmptyString => false
     | String _ s' => contains sub s'
     end.

(** [s.count(c)] for a one-character argument *)
Fixpoint count (c : ascii) (s : string) : Z :=
  match s with
  | EmptyString => 0
  | String a s' => (if Ascii.eqb a c then 1 else 0) + count c s'
  end.

(** [s.endswith(suffix)] *)
Fixpoint endswith (suffix s : string) : bool :=
  String.eqb s suffix
  || match s with
     | EmptyString => false
     | String _ s' => endswith suffix s'
     end.

(** [s.split(sep)] for a one-character separator: never empty *)
Fixpoint split (sep : ascii) (s : string) : list string :=
  match s with
  | EmptyString => [EmptyString]
  | String c s' =>
      if Ascii.eqb c sep then EmptyString :: split sep s'
      else match split sep s' with
           | [] => [String c EmptyString]
           | l :: ls => String c l :: ls
           end
  end.

(** [sep.join(ls)] *)
Definition join (sep : string) (ls : list string) : string :=
  String.concat sep ls.

(** The remainder of [s] after the literal [p], when [s] starts with it. *)
Fixpoint after_literal (p s : string) : option string :=
  match p, s with
  | EmptyString, _ => Some s
  | String a p', String b s' =>
      if Ascii.eqb a b then after_literal p' s' else None
  | String _ _, EmptyString => None
  end.

End Py.

(** The newline character and the one-character string holding it. *)
Definition LF : ascii := ascii_of_nat 10.
Definition NL : string := String LF EmptyString.

(** ** Module constants *)

Definition SKIP_PATTERNS : list string :=
  [ "node_modules"; ".test.ts"; ".test.tsx"; "/tests/"; "/testing/";
    "/__tests__/"; ".spec.ts"; ".spec.tsx" ].

Definition METHODS : list string := ["log"; "warn"; "error"; "debug"; "info"].

(** [re.match(r'^\s*console\.(log|warn|error|debug|info)\s*\(', s)]:
    the match is anchored at the start of [s]; the greedy [\s*] is followed
    by a character that is no white space, so giving back white space never
    helps, and the alternation succeeds when one method name does. *)
Definition console_start (s : string) : bool :=
  match Py.after_literal "console." (Py.lstrip s) with
  | None => false
  | Some r =>
      existsb
        (fun m =>
           match Py.after_literal m r with
           | None => false
           | Some r' => String.prefix "(" (Py.lstrip r')
           end)
        METHODS
  end.

(** ** The scanner *)

(** Line 56: ['__DEV__' in line and ('{' in line or 'if' in line)] *)
Definition dev_entry (line : string) : bool :=
  Py.contains "__DEV__" line
  && (Py.contains "{" line || Py.contains "if" line).

(** [line.count('{') - line.count('}')] *)
Definition brace_delta (line : string) : Z :=
  Py.count "{" line - Py.count "}" line.

(** [line.count('(') - line.count(')')] *)
Definition paren_delta (line : string) : Z :=
  Py.count "(" line - Py.count ")" line.

(** Line 71: [stripped.endswith(');') or stripped.endswith(')')] *)
Definition closed_on_line (stripped : string) : bool :=
  Py.endswith ");" stripped || Py.endswith ")" stripped.

(** The local variables of [remove_console_statements]; [lines] never
    changes and is passed alongside. *)
Record state : Type := State {
  i : nat;
  in_dev_block : bool;
  dev_block_depth : Z;
  new_lines : list string;
  removed : Z
}.

Definition initial : state :=
  {| i := 0; in_dev_block := false; dev_block_depth := 0;
     new_lines := []; removed := 0 |}.

(** Lines 56-58: a guard-entry line switches the mode on and sets the
    depth to one, whatever the mode was. *)
Definition track_dev (line : string) (st : state) : state :=
  if dev_entry line then
    {| i := i st; in_dev_block := true; dev_block_depth := 1;
       new_lines := new_lines st; removed := removed st |}
  else st.

(** Lines 78-80, the inner loop
    [while paren_depth > 0 and i + 1 < len(lines)], returning the final
    cursor.  [rest] is [lines[i+1:]]: it is non-empty exactly when
    [i + 1 < len(lines)], and its head is the line read after [i += 1]. *)
Fixpoint consume (rest : list string) (i : nat) (paren_depth : Z) : nat :=
  match rest with
  | [] => i
  | l :: rest' =>
      if 0 <? paren_depth
      then consume rest' (S i) (paren_depth + paren_delta l)
      else i
  end.

(** Lines 52-86: one iteration of the outer loop, [line] being
    [lines[i]]. *)
Definition body (lines : list string) (line : string) (st : state) : state :=
  let stripped := Py.strip line in
  let st := track_dev line st in
  if in_dev_block st then
    let depth := dev_block_depth st + brace_delta line in
    {| i := S (i st);
       in_dev_block := negb (depth <=? 0);
       dev_block_depth := depth;
       new_lines := new_lines st ++ [line];
       removed := removed st |}
  else if console_start stripped then
    if closed_on_line stripped then
      {| i := S (i st); in_dev_block := in_dev_block st;
         dev_block_depth := dev_block_depth st;
         new_lines := new_lines st; removed := removed st + 1 |}
    else
      let j := consume (drop (S (i st)) lines) (i st) (paren_delta line) in
      {| i := S j; in_dev_block := in_dev_block st;
         dev_block_depth := dev_block_depth st;
         new_lines := new_lines st; removed := removed st + 1 |}
  else
    {| i := S (i st); in_dev_block := in_dev_block st;
       dev_block_depth := dev_block_depth st;
       new_lines := new_lines st ++ [line]; removed := removed st |}.

(** Line 51, [while i < len(lines)]: the lookup fails exactly when the
    cursor has reached the end.  [None] stands for a loop still running
    when the fuel is spent. *)
Fixpoint loop (fuel : nat) (lines : list string) (st : state) : option state :=
  match lines !! i st with
  | None => Some st
  | Some line =>
      match fuel with
      | O => None
      | S fuel' => loop fuel' lines (body lines line st)
      end
  end.

(** The scan of a list of lines: retained lines and number of removed
    statements. *)
Definition scan_lines (lines : list string) : option (list string * Z) :=
  st ← loop (length lines) lines initial;
  Some (new_lines st, removed st).

(** Lines 42-88. *)
Definition remove_console_statements (content : string) : option (string * Z) :=
  '(kept, n) ← scan_lines (Py.split LF content);
  Some (Py.join NL kept, n).

(** ** Files and the per-file driver *)

(** What a call into the runtime yields: a value, or a raised exception
    with its message ([str(e)]). *)
Inductive outcome (A : Type) : Type :=
  | Ok (a : A)
  | Raise (e : string).
Arguments Ok {A} a.
Arguments Raise {A} e.

(** A file on disk: its text, and the error its reading or writing raises,
    if any (permissions, undecodable bytes, ...). *)
Record file : Type := File {
  text : string;
  read_error : option string;
  write_error : option string
}.

(** The operations [process_file] can perform on its environment;
    printing is taken never to raise. *)
Inductive event : Type :=
  | ReadText (path : string)
  | WriteText (path data : string)
  | Print (line : string).

Record world : Type := World {
  disk : gmap string file;
  log : list event
}.

Definition record (es : list event) (w : world) : world :=
  {| disk := disk w; log := log w ++ es |}.

(** [filepath.read_text(encoding='utf-8')] *)
Definition read_text (d : gmap string file) (path : string) : outcome string :=
  match d !! path with
  | None => Raise "No such file or directory"
  | Some f =>
      match read_error f with
      | Some e => Raise e
      | None => Ok (text f)
      end
  end.

(** [filepath.write_text(data, encoding='utf-8')]; a write that raises is
    taken to leave the disk as it was. *)
Definition write_text (d : gmap string file) (path data : string)
  : outcome (gmap string file) :=
  match d !! path with
  | None => Ok (<[path := File data None None]> d)
  | Some f =>
      match write_error f with
      | Some e => Raise e
      | None => Ok (<[path := File data (read_error f) None]> d)
      end
  end.

(** Lines 91-96: the first pattern found in the path answers [True]. *)
Fixpoint any_in (patterns : list string) (filepath : string) : bool :=
  match patterns with
  | [] => false
  | pattern :: patterns' =>
      if Py.contains pattern filepath then true else any_in patterns' filepath
  end.

Definition should_skip (filepath : string) : bool :=
  any_in SKIP_PATTERNS filepath.

(** The two lines the script prints about a file. *)
Definition removed_message (filepath : string) (removed : Z) : string :=
  "  " +:+ filepath +:+ ": removed " +:+ pretty removed
  +:+ " console statement(s)".

Definition error_message (filepath e : string) : string :=
  "  Error processing " +:+ filepath +:+ ": " +:+ e.

(** Lines 99-115.  [None] only when the scan itself does not return. *)
Definition process_file (filepath : string) (w : world) : option (Z * world) :=
  if should_skip filepath then Some (0, w)
  else
    match read_text (disk w) filepath with
    | Raise e =>
        Some (0, record [ReadText filepath;
                         Print (error_message filepath e)] w)
    | Ok content =>
        '(new_content, removed) ← remove_console_statements content;
        if 0 <? removed then
          match write_text (disk w) filepath new_content with
          | Raise e =>
              Some (0, record [ReadText filepath;
                               WriteText filepath new_content;
                               Print (error_message filepath e)] w)
          | Ok d' =>
              Some (removed,
                    {| disk := d';
                       log := log w ++
                         [ReadText filepath;
                          WriteText filepath new_content;
                          Print (removed_message filepath removed)] |})
          end
        else Some (removed, record [ReadText filepath] w)
    end.

(** Lines 131-141: each of the two [for] loops of [main], over the paths
    the directory walk yields. *)
Fixpoint process_all (paths : list string) (total_removed files_modified : Z)
    (w : world) : option (Z * Z * world) :=
  match paths with
  | [] => Some (total_removed, files_modified, w)
  | filepath :: paths' =>
      '(removed, w') ← process_file filepath w;
      if 0 <? removed
      then process_all paths' (total_removed + removed) (files_modified + 1) w'
      else process_all paths' total_removed files_modified w'
  end.

(** ** Notions used to state the properties *)

(** The mode as the test of line 60 sees it, the guard-entry check of
    lines 56-58 having run on [line]. *)
Definition guarded_at (line : string) (st : state) : bool :=
  in_dev_block (track_dev line st).

(** [n] iterations of the outer loop, or fewer if the input ends. *)
Fixpoint steps (n : nat) (lines : list string) (st : state) : state :=
  match n with
  | O => st
  | S n' =>
      match lines !! i st with
      | None => st
      | Some line => steps n' lines (body lines line st)
      end
  end.

(** Brace and parenthesis balance of a run of lines. *)
Definition brace_total (ls : list string) : Z :=
  foldr (fun l acc => brace_delta l + acc) 0 ls.

Definition paren_total (ls : list string) : Z :=
  foldr (fun l acc => paren_delta l + acc) 0 ls.

(** [lines[a..b]], both ends included. *)
Definition span (lines : list string) (a b : nat) : list string :=
  take (S b - a) (drop a lines).

(** No closing brace in surplus: the brace balance of every prefix of
    [ls] is at least zero. *)
Definition no_surplus_close (ls : list string) : Prop :=
  forall k : nat, 0 <= brace_total (take k ls).

(** The same, checked along the list from a starting balance. *)
Fixpoint never_below (acc : Z) (ls : list string) : bool :=
  match ls with
  | [] => true
  | l :: ls' =>
      (0 <=? acc + brace_delta l) && never_below (acc + brace_delta l) ls'
  end.

(** [sub] occurs in [s]. *)
Definition substring_of (sub s : string) : Prop :=
  exists pre post : string, s = pre +:+ sub +:+ post.

(** The scan as a recursion over the remaining lines: [skip] lines still
    belong to the statement being dropped, [dev] and [depth] are the mode
    and the counter.  It is shown below to compute what [loop] computes. *)
Fixpoint scan_from (skip : nat) (dev : bool) (depth : Z) (ls : list string)
  : list string * Z :=
  match ls with
  | [] => ([], 0)
  | line :: rest =>
      match skip with
      | S k => scan_from k dev depth rest
      | O =>
          let dev1 := if dev_entry line then true else dev in
          let depth1 := if dev_entry line then 1 else depth in
          if dev1 then
            let depth2 := depth1 + brace_delta line in
            let r := scan_from 0 (negb (depth2 <=? 0)) depth2 rest in
            (line :: r.1, r.2)
          else if console_start (Py.strip line) then
            let k := if closed_on_line (Py.strip line) then O
                     else consume rest 0 (paren_delta line) in
            let r := scan_from k dev1 depth1 rest in
            (r.1, r.2 + 1)
          else
            let r := scan_from 0 dev1 depth1 rest in
            (line :: r.1, r.2)
      end
  end.

(** The fate of the input lines: a line kept as it is, or a statement
    dropped with all the lines it spans. *)
Inductive chunk : Type :=
  | Kept (line : string)
  | Dropped (start : string) (more : list string).

Definition chunk_lines (c : chunk) : list string :=
  match c with
  | Kept line => [line]
  | Dropped start more => start :: more
  end.

Definition chunk_kept (c : chunk) : list string :=
  match c with
  | Kept line => [line]
  | Dropped _ _ => []
  end.

Definition chunk_dropped (c : chunk) : list string :=
  match c with
  | Kept _ => []
  | Dropped start more => start :: more
  end.

Definition is_statement (c : chunk) : bool :=
  match c with
  | Kept _ => false
  | Dropped _ _ => true
  end.

(** A dropped chunk starts at a line matching the console pattern. *)
Definition chunk_starts_ok (c : chunk) : Prop :=
  match c with
  | Kept _ => True
  | Dropped start _ => console_start (Py.strip start) = true
  end.

(** Number of dropped statements and of dropped lines in a list of
    chunks. *)
Definition statements (cs : list chunk) : Z :=
  foldr (fun c n => (if is_statement c then 1 else 0) + n) 0 cs.

Definition dropped_lines (cs : list chunk) : list string :=
  flat_map chunk_dropped cs.

(** [c] does not occur in [s]. *)
Fixpoint lacks (c : ascii) (s : string) : bool :=
  match s with
  | EmptyString => true
  | String a s' => negb (Ascii.eqb a c) && lacks c s'
  end.

(** Why [process_file] can fail on a file: the read raises, or the read
    succeeds, statements are removed and the write raises.  The events
    are those performed up to the failure. *)
Inductive io_failure (w : world) (filepath : string)
  : string -> list event -> Prop :=
  | read_fails e :
      read_text (disk w) filepath = Raise e ->
      io_failure w filepath e [ReadText filepath]
  | write_fails content new_content n e :
      read_text (disk w) filepath = Ok content ->
      remove_console_statements content = Some (new_content, n) ->
      0 < n ->
      write_text (disk w) filepath new_content = Raise e ->
      io_failure w filepath e
        [ReadText filepath; WriteText filepath new_content].

(** ** Sample inputs *)

Definition lines_text (ls : list string) : string := Py.join NL ls.

(** A console call spanning four lines. *)
Definition removal_sample : list string :=
  ["a();"; "console.log("; "  f(x),"; "  y"; ");"; "b();"].

(** The guarded block of the specification's third scenario. *)
Definition guarded_sample : list string :=
  ["if (__DEV__) {"; "  console.log('debug');"; "}"; "const z = 3;"].

(** A guarded block holding a second guard-entry line two braces deep,
    and a console call after the inner blocks are closed. *)
Definition nested_sample : list string :=
  [ "if (__DEV__) {";
    "  items.forEach(item => {";
    "    if (__DEV__ && item.debug) {";
    "      render(item);";
    "    }";
    "  });";
    "  console.log('done');";
    "}" ].

(** A closed guarded block, then a function whose body mentions the
    marker next to an opening brace, then a console call. *)
Definition reentry_sample : list string :=
  [ "if (__DEV__) {";
    "}";
    "function f() {";
    "  g(__DEV__, {";
    "  });";
    "}";
    "console.log(1);" ].

(** A file under a test directory, and a file that can be read but not
    written. *)
Definition test_file_world : world :=
  {| disk := {[ "src/tests/util.ts" := File "console.log(1);" None None ]};
     log := [] |}.

Definition read_only_world : world :=
  {| disk := {[ "src/app.ts" :=
                  File "console.log(1);" None (Some "Permission denied") ]};
     log := [] |}.

(** ** The whole run *)

(** [src_dir.rglob('*' + suffix)], over the paths found below [src_dir]
    in the order the walk yields them: an entry is yielded when its name
    ends with [suffix]. *)
Definition rglob (tree : list string) (suffix : string) : list string :=
  List.filter (fun p => Py.endswith suffix p) tree.

Definition missing_root_message (src_dir : string) : string :=
  "Error: src directory not found at " +:+ src_dir.

Definition scanning_message (src_dir : string) : string :=
  "Scanning " +:+ src_dir +:+ " for console statements...".

Definition skipping_message : string :=
  "Skipping: test files, __DEV__ blocks" +:+ NL.

(** Line 143.  [mark] is the glyph the message starts with, whose code
    points lie above 255. *)
Definition summary_message (mark : string) (total_removed files_modified : Z)
  : string :=
  NL +:+ mark +:+ " Done! Removed " +:+ pretty total_removed
  +:+ " console statements from " +:+ pretty files_modified +:+ " files.".

(** Lines 118-143, returning the exit status: [src_exists] answers
    [src_dir.exists()] and [tree] lists what lies below [src_dir]. *)
Definition main (mark src_dir : string) (src_exists : bool)
    (tree : list string) (w : world) : option (Z * world) :=
  if negb src_exists then
    Some (1, record [Print (missing_root_message src_dir)] w)
  else
    let w0 := record [Print (scanning_message src_dir);
                      Print skipping_message] w in
    '(total_removed, files_modified, w1) ←
      process_all (rglob tree ".ts") 0 0 w0;
    '(total_removed, files_modified, w2) ←
      process_all (rglob tree ".tsx") total_removed files_modified w1;
    Some (0, record [Print (summary_message mark total_removed
                              files_modified)] w2).

(** ** Further notions *)

(** Only white space. *)
Fixpoint all_space (s : string) : bool :=
  match s with
  | EmptyString => true
  | String c s' => Py.isspace c && all_space s'
  end.

(** The test of line 69 on a raw line. *)
Definition is_console_line (line : string) : bool :=
  console_start (Py.strip line).

Definition console_count (ls : list string) : Z :=
  foldr (fun l n => (if is_console_line l then 1 else 0) + n) 0 ls.


(** A file that reads and writes without error. *)
Definition app_world : world :=
  {| disk := {[ "src/app.ts" :=
                  File (lines_text ["a();"; "console.log(1);"; "b();"])
                       None None ]};
     log := [] |}.

(** ** Scenarios of the specification, run on the model *)

Example scenario_single_line :
  remove_console_statements
    (lines_text ["const x = 1;"; "console.log('hi');"; "const y = 2;"])
  = Some (lines_text ["const x = 1;"; "const y = 2;"], 1).
Proof. vm_compute. reflexivity. Qed.

Example scenario_multi_line :
  remove_console_statements
    (lines_text ["console.error("; "  'bad', err"; ");"; "next();"])
  = Some ("next();", 1).
Proof. vm_compute. reflexivity. Qed.

Example scenario_guarded_block :
  remove_console_statements (lines_text guarded_sample)
  = Some (lines_text guarded_sample, 0).
Proof. vm_compute. reflexivity. Qed.

Example scenario_two_calls :
  remove_console_statements
    (lines_text ["a();"; "console.warn(1);"; "console.info (2)"; "b();"])
  = Some (lines_text ["a();"; "b();"], 2).
Proof. vm_compute. reflexivity. Qed.

(** ** The inner loop *)

Lemma consume_shift rest i0 p :
  consume rest i0 p = (i0 + consume rest 0 p)%nat.
Proof.
  revert i0 p. induction rest as [|l rest IH]; intros i0 p; simpl.
  - lia.
  - destruct (0 <? p); [|lia].
    rewrite (IH (S i0)), (IH 1%nat). lia.
Qed.

Lemma consume_bounds rest i0 p :
  (i0 <= consume rest i0 p <= i0 + length rest)%nat.
Proof.
  revert i0 p. induction rest as [|l rest IH]; intros i0 p; simpl.
  - lia.
  - destruct (0 <? p); [|lia].
    specialize (IH (S i0) (p + paren_delta l)). lia.
Qed.

(** While the loop runs the balance is positive; where it stops the
    balance is spent or the input is. *)
Lemma consume_running rest i0 p :
  let j := consume rest i0 p in
  (forall k, (i0 <= k < j)%nat -> 0 < p + paren_total (take (k - i0) rest))
  /\ (p + paren_total (take (j - i0) rest) <= 0
      \/ j = (i0 + length rest)%nat).
Proof.
  revert i0 p. induction rest as [|l rest IH]; intros i0 p; simpl.
  - split; [lia | right; lia].
  - destruct (0 <? p) eqn:Hp.
    + apply Z.ltb_lt in Hp.
      destruct (IH (S i0) (p + paren_delta l)) as [Hrun Hstop].
      pose proof (consume_bounds rest (S i0) (p + paren_delta l)) as Hb.
      split.
      * intros k Hk.
        destruct (decide (k = i0)) as [->|Hne].
        { replace (i0 - i0)%nat with 0%nat by lia. simpl. lia. }
        replace (k - i0)%nat with (S (k - S i0)) by lia. simpl.
        specialize (Hrun k ltac:(lia)). lia.
      * replace (consume rest (S i0) (p + paren_delta l) - i0)%nat
          with (S (consume rest (S i0) (p + paren_delta l) - S i0)) by lia.
        simpl. destruct Hstop as [Hstop|Hstop]; [left; lia | right; lia].
    + apply Z.ltb_ge in Hp. split; [lia|].
      left. replace (i0 - i0)%nat with 0%nat by lia. simpl. lia.
Qed.

(** ** Progress of the outer loop *)

Lemma body_progress lines line st :
  lines !! i st = Some line ->
  (i st < i (body lines line st) <= length lines)%nat.
Proof.
  intros Hl. apply lookup_lt_Some in Hl.
  pose proof (consume_bounds (drop (S (i st)) lines) (i st) (paren_delta line)) as Hc.
  rewrite length_drop in Hc.
  unfold body, track_dev.
  repeat (case_match; simpl); lia.
Qed.

Lemma loop_steps fuel lines st st' :
  loop fuel lines st = Some st' -> st' = steps fuel lines st.
Proof.
  revert st. induction fuel as [|fuel IH]; intros st; simpl.
  - destruct (lines !! i st); congruence.
  - destruct (lines !! i st); [apply IH | congruence].
Qed.

Lemma scan_from_skip k dev depth ls :
  scan_from k dev depth ls = scan_from 0 dev depth (drop k ls).
Proof.
  revert k. induction ls as [|l ls IH]; intros [|k]; simpl; auto.
Qed.

(** The loop returns whenever the fuel covers the lines still to scan,
    and computes what the recursion over the lines computes. *)
Lemma loop_scan_from fuel lines st :
  (i st <= length lines)%nat ->
  (length lines - i st <= fuel)%nat ->
  exists st',
    loop fuel lines st = Some st'
    /\ i st' = length lines
    /\ new_lines st' =
         new_lines st ++
         (scan_from 0 (in_dev_block st) (dev_block_depth st)
            (drop (i st) lines)).1
    /\ removed st' =
         removed st +
         (scan_from 0 (in_dev_block st) (dev_block_depth st)
            (drop (i st) lines)).2.
Proof.
  revert st. induction fuel as [|fuel IH]; intros st Hle Hfuel.
  - assert (i st = length lines) as Hi by lia.
    exists st. simpl. rewrite lookup_ge_None_2 by lia.
    rewrite Hi, drop_all. simpl. rewrite app_nil_r. split_and!; [done..|lia].
  - simpl. destruct (lines !! i st) as [line|] eqn:Hl.
    + pose proof (body_progress _ _ _ Hl) as Hprog.
      destruct (IH (body lines line st)) as (st' & Hloop & Hi & Hnew & Hrem);
        [lia | lia |].
      exists st'. split; [done|]. split; [done|].
      rewrite Hnew, Hrem.
      rewrite (drop_S _ _ _ Hl). clear Hloop Hi Hnew Hrem IH.
      unfold body, track_dev. simpl scan_from.
      destruct (dev_entry line); simpl.
      { rewrite <- app_assoc. done. }
      destruct (in_dev_block st) eqn:Hdev; simpl.
      { rewrite <- app_assoc. done. }
      destruct (console_start (Py.strip line)); simpl.
      * destruct (closed_on_line (Py.strip line)); simpl.
        { split; [done | lia]. }
        rewrite (scan_from_skip (consume _ 0 _)).
        rewrite drop_drop.
        rewrite (consume_shift _ (i st)).
        replace (S (i st) + consume (drop (S (i st)) lines) 0 (paren_delta line))%nat
          with (S (i st + consume (drop (S (i st)) lines) 0 (paren_delta line)))
          by lia.
        split; [done | lia].
      * rewrite <- app_assoc. done.
    + apply lookup_ge_None_1 in Hl.
      exists st. rewrite drop_ge by lia. simpl. rewrite app_nil_r.
      split_and!; [done | lia | done | lia].
Qed.

(** ** The scan as a recursion over the lines *)

Lemma scan_from_count_nonneg k dev depth ls :
  0 <= (scan_from k dev depth ls).2.
Proof.
  revert k dev depth. induction ls as [|l ls IH]; intros k dev depth; simpl.
  - lia.
  - destruct k as [|k]; [|apply IH].
    repeat case_match; simpl;
      match goal with |- context [scan_from ?a ?b ?c ls] =>
        specialize (IH a b c) end; lia.
Qed.

(** Every line is kept as it is or belongs to exactly one dropped
    statement, in the order of the input. *)
Lemma scan_from_chunks ls k dev depth :
  exists cs,
    drop k ls = flat_map chunk_lines cs
    /\ (scan_from k dev depth ls).1 = flat_map chunk_kept cs
    /\ (scan_from k dev depth ls).2 = statements cs
    /\ Forall chunk_starts_ok cs.
Proof.
  revert k dev depth. induction ls as [|l ls IH]; intros k dev depth.
  - exists []. destruct k; simpl; done.
  - destruct k as [|k]; [|apply IH]. simpl.
    destruct (if dev_entry l then true else dev) eqn:Hdev.
    { destruct (IH 0%nat
                  (negb ((if dev_entry l then 1 else depth) + brace_delta l <=? 0))
                  ((if dev_entry l then 1 else depth) + brace_delta l))
        as (cs & Hin & Hout & Hn & Hok).
      exists (Kept l :: cs). rewrite drop_0 in Hin. simpl in *.
      split_and!; [congruence | congruence | lia | by constructor]. }
    destruct (console_start (Py.strip l)) eqn:Hcs.
    + set (n := if closed_on_line (Py.strip l) then 0%nat
                else consume ls 0 (paren_delta l)).
      destruct (IH n false (if dev_entry l then 1 else depth))
        as (cs & Hin & Hout & Hn & Hok).
      exists (Dropped l (take n ls) :: cs). simpl.
      rewrite <- Hin, take_drop, Hout, Hn.
      split_and!; [done | done | lia | by constructor].
    + destruct (IH 0%nat false (if dev_entry l then 1 else depth))
        as (cs & Hin & Hout & Hn & Hok).
      exists (Kept l :: cs). rewrite drop_0 in Hin. simpl in *.
      split_and!; [congruence | congruence | lia | by constructor].
Qed.

(** A second scan of the kept lines, started in the same mode, keeps
    them all. *)
Lemma scan_from_idem ls k dev depth :
  scan_from 0 dev depth (scan_from k dev depth ls).1
  = ((scan_from k dev depth ls).1, 0).
Proof.
  revert k dev depth. induction ls as [|l ls IH]; intros k dev depth.
  - destruct k; done.
  - destruct k as [|k]; [|apply IH]. simpl.
    destruct (if dev_entry l then true else dev) eqn:Hdev.
    { simpl. rewrite Hdev, IH. done. }
    assert (dev_entry l = false /\ dev = false) as [He ->]
      by (destruct (dev_entry l); done).
    rewrite He.
    destruct (console_start (Py.strip l)) eqn:Hcs.
    + simpl. apply IH.
    + simpl. rewrite He, Hcs, IH. done.
Qed.

(** ** Chunks *)

Lemma chunks_kept_sublist cs :
  flat_map chunk_kept cs `sublist_of` flat_map chunk_lines cs.
Proof.
  induction cs as [|[l|l more] cs IH]; simpl.
  - constructor.
  - by constructor.
  - apply sublist_cons. by apply sublist_inserts_l.
Qed.

Lemma chunks_length cs :
  (length (flat_map chunk_kept cs) + length (dropped_lines cs)
   = length (flat_map chunk_lines cs))%nat.
Proof.
  unfold dropped_lines.
  induction cs as [|[l|l more] cs IH]; simpl; rewrite ?length_app; lia.
Qed.

Lemma statements_nonneg cs : 0 <= statements cs.
Proof. induction cs as [|c cs IH]; simpl; [lia | destruct (is_statement c); lia]. Qed.

(** ** Splitting and joining *)

Lemma split_nonempty sep s : Py.split sep s <> [].
Proof.
  destruct s as [|c s]; simpl; [done|].
  destruct (Ascii.eqb c sep); [done|]. by destruct (Py.split sep s).
Qed.

Lemma split_lacks sep s : Forall (fun l => lacks sep l = true) (Py.split sep s).
Proof.
  induction s as [|c s IH]; simpl.
  - by repeat constructor.
  - destruct (Ascii.eqb c sep) eqn:Hc.
    + by constructor.
    + destruct (Py.split sep s) as [|l ls]; constructor; simpl.
      * by rewrite Hc.
      * constructor.
      * rewrite Hc. simpl. by inversion IH.
      * by inversion IH.
Qed.

Lemma split_line sep l : lacks sep l = true -> Py.split sep l = [l].
Proof.
  induction l as [|c l IH]; simpl; [done|].
  intros [Hc Hl]%andb_prop. apply negb_true_iff in Hc. rewrite Hc, (IH Hl). done.
Qed.

Lemma split_app_sep sep l rest :
  lacks sep l = true ->
  Py.split sep (l +:+ String sep rest) = l :: Py.split sep rest.
Proof.
  induction l as [|c l IH]; simpl.
  - intros _. by rewrite Ascii.eqb_refl.
  - intros [Hc Hl]%andb_prop. apply negb_true_iff in Hc.
    rewrite Hc, (IH Hl). done.
Qed.

Lemma split_join ls :
  ls <> [] ->
  Forall (fun l => lacks LF l = true) ls ->
  Py.split LF (Py.join NL ls) = ls.
Proof.
  induction ls as [|l ls IH]; [done|]. intros _ Hall.
  inversion Hall as [|? ? Hl Hls]; subst.
  destruct ls as [|l' ls].
  - simpl. by apply split_line.
  - change (Py.join NL (l :: l' :: ls))
      with (l +:+ String LF (Py.join NL (l' :: ls))).
    rewrite split_app_sep by done. f_equal. by apply IH.
Qed.

(** ** Occurrence of a substring *)

Lemma append_cons c s t : String c s +:+ t = String c (s +:+ t).
Proof. reflexivity. Qed.

Lemma append_nil t : EmptyString +:+ t = t.
Proof. reflexivity. Qed.

Lemma prefix_spec sub s :
  String.prefix sub s = true <-> exists post, s = sub +:+ post.
Proof.
  revert s. induction sub as [|a sub IH]; intros s.
  - split; [intros _; by exists s | by destruct s].
  - destruct s as [|b s]; simpl.
    + split; [done | intros [post Hp]; discriminate Hp].
    + destruct (ascii_dec a b) as [->|Hne].
      * rewrite IH.
        split; intros [post Hp]; exists post; rewrite append_cons in *;
          congruence.
      * split; [done | intros [post Hp]; rewrite append_cons in Hp; congruence].
Qed.

Lemma contains_spec sub s :
  Py.contains sub s = true <-> substring_of sub s.
Proof.
  unfold substring_of. split.
  - induction s as [|c s IH]; cbn [Py.contains].
    + rewrite orb_false_r. intros [post Hp]%prefix_spec.
      by exists EmptyString, post.
    + intros [[post Hp]%prefix_spec | Hc]%orb_prop.
      * by exists EmptyString, post.
      * destruct (IH Hc) as (pre & post & ->).
        by exists (String c pre), post.
  - intros (pre & post & ->).
    induction pre as [|c pre IH].
    + rewrite append_nil.
      assert (String.prefix sub (sub +:+ post) = true) as Hp
        by (apply prefix_spec; by exists post).
      destruct (sub +:+ post); cbn [Py.contains]; by rewrite Hp.
    + rewrite append_cons. cbn [Py.contains]. rewrite IH. apply orb_true_r.
Qed.

(** ** The scan of a whole text *)

Lemma scan_lines_scan_from lines :
  scan_lines lines = Some (scan_from 0 false 0 lines).
Proof.
  unfold scan_lines.
  destruct (loop_scan_from (length lines) lines initial)
    as (st & -> & _ & Hnew & Hrem); simpl; [lia | lia |].
  rewrite Hnew, Hrem. simpl. rewrite drop_0, Z.add_0_l.
  by destruct (scan_from 0 false 0 lines).
Qed.

Lemma remove_console_statements_eq content :
  remove_console_statements content
  = Some (Py.join NL (scan_from 0 false 0 (Py.split LF content)).1,
          (scan_from 0 false 0 (Py.split LF content)).2).
Proof.
  unfold remove_console_statements. rewrite scan_lines_scan_from. simpl.
  by destruct (scan_from 0 false 0 (Py.split LF content)).
Qed.

Lemma sublist_Forall {A} (P : A -> Prop) (l1 l2 : list A) :
  l1 `sublist_of` l2 -> Forall P l2 -> Forall P l1.
Proof.
  intros Hsub Hall. apply Forall_forall. intros x Hx.
  rewrite Forall_forall in Hall. apply Hall. by eapply elem_of_sublist.
Qed.

Lemma scan_from_sublist k dev depth ls :
  (scan_from k dev depth ls).1 `sublist_of` ls.
Proof.
  destruct (scan_from_chunks ls k dev depth) as (cs & Hin & Hout & _).
  rewrite Hout. etrans; [apply chunks_kept_sublist|].
  rewrite <- Hin. apply sublist_drop.
Qed.

(** ** Totality, idempotence and retention *)

(** C9 -- Totality and termination of the core transform: for every input
    text [remove_console_statements] returns a pair of a text and a count,
    the count is not negative, every iteration of the outer loop moves the
    cursor forward by at least one line without passing the end (and the
    loop has stopped where no line is left), and the inner loop returns a
    cursor between its start and the last line. *)
Theorem remove_console_statements_total :
  (forall content : string,
      exists (text : string) (n : Z),
        remove_console_statements content = Some (text, n) /\ 0 <= n)
  /\ (forall (lines : list string) (st : state),
         match lines !! i st with
         | Some line => (i st < i (body lines line st) <= length lines)%nat
         | None => forall fuel, loop fuel lines st = Some st
         end)
  /\ (forall (rest : list string) (i0 : nat) (p : Z),
         (i0 <= consume rest i0 p <= i0 + length rest)%nat).
Proof.
  split_and!.
  - intros content. eexists _, _. split.
    + apply remove_console_statements_eq.
    + apply scan_from_count_nonneg.
  - intros lines st. destruct (lines !! i st) as [line|] eqn:Hl.
    + by apply body_progress.
    + intros [|fuel]; simpl; by rewrite Hl.
  - apply consume_bounds.
Qed.

(** C4 -- Idempotence: the transform applied to its own output returns
    that same text and reports no removal. *)
Theorem strip_idempotent (content : string) :
  exists (text : string) (n : Z),
    remove_console_statements content = Some (text, n)
    /\ remove_console_statements text = Some (text, 0).
Proof.
  eexists _, _. split; [apply remove_console_statements_eq|].
  set (lines := Py.split LF content).
  set (kept := (scan_from 0 false 0 lines).1).
  destruct kept as [|l kept'] eqn:Hkept.
  - vm_compute. reflexivity.
  - rewrite remove_console_statements_eq.
    rewrite split_join; [| done |].
    + rewrite <- Hkept. unfold kept. rewrite scan_from_idem. done.
    + rewrite <- Hkept. unfold kept.
      eapply sublist_Forall; [apply scan_from_sublist | apply split_lacks].
Qed.

(** C5 -- Retention invariant: the input lines split, in order, into
    chunks, each a single line kept verbatim or one dropped statement with
    all the lines it spans (starting at a line that matches the console
    pattern); the output lines are the kept ones, the count is the number
    of dropped statements, the output lines form a subsequence of the
    input lines, and their number is the number of input lines minus the
    number of lines of the dropped statements. *)
Theorem retention_invariant (content : string) :
  exists (cs : list chunk) (kept : list string) (n : Z),
    scan_lines (Py.split LF content) = Some (kept, n)
    /\ remove_console_statements content = Some (Py.join NL kept, n)
    /\ Py.split LF content = flat_map chunk_lines cs
    /\ kept = flat_map chunk_kept cs
    /\ n = statements cs
    /\ Forall chunk_starts_ok cs
    /\ kept `sublist_of` Py.split LF content
    /\ length kept
       = (length (Py.split LF content) - length (dropped_lines cs))%nat.
Proof.
  set (lines := Py.split LF content).
  destruct (scan_from_chunks lines 0 false 0) as (cs & Hin & Hout & Hn & Hok).
  rewrite drop_0 in Hin.
  exists cs, (scan_from 0 false 0 lines).1, (scan_from 0 false 0 lines).2.
  split_and!; try done.
  - rewrite scan_lines_scan_from. by destruct (scan_from 0 false 0 lines).
  - apply remove_console_statements_eq.
  - apply scan_from_sublist.
  - rewrite Hout, Hin. pose proof (chunks_length cs). lia.
Qed.

(** ** One iteration of the outer loop *)

Lemma span_cons lines a b line :
  lines !! a = Some line -> (a <= b)%nat ->
  span lines a b = line :: take (b - a) (drop (S a) lines).
Proof.
  intros Hl Hab. unfold span. rewrite (drop_S _ _ _ Hl).
  replace (S b - a)%nat with (S (b - a)) by lia. done.
Qed.

(** C1 -- Removal of a target statement: at a line that the mode test
    finds outside guarded-block mode and whose trimmed content starts a
    console call, nothing is appended to the output, the count grows by
    exactly one and mode and depth are untouched.  If the trimmed line
    ends with [");"] or [")"] the cursor moves one line on.  Otherwise the
    cursor moves just past a last consumed line [j]: the parenthesis
    balance summed from the start line stays positive up to every line
    before [j], and at [j] it is zero or less or [j] is the last line of
    the input. *)
Theorem target_statement_removal
    (lines : list string) (st : state) (line : string) :
  lines !! i st = Some line ->
  guarded_at line st = false ->
  console_start (Py.strip line) = true ->
  let st' := body lines line st in
  new_lines st' = new_lines st
  /\ removed st' = removed st + 1
  /\ in_dev_block st' = in_dev_block st
  /\ dev_block_depth st' = dev_block_depth st
  /\ (closed_on_line (Py.strip line) = true -> i st' = S (i st))
  /\ (closed_on_line (Py.strip line) = false ->
      exists j : nat,
        i st' = S j
        /\ (i st <= j < length lines)%nat
        /\ (forall k : nat, (i st <= k < j)%nat ->
              0 < paren_total (span lines (i st) k))
        /\ (paren_total (span lines (i st) j) <= 0
            \/ S j = length lines)).
Proof.
  intros Hl Hmode Hstart. unfold guarded_at in Hmode.
  assert (track_dev line st = st) as Htrack.
  { unfold track_dev in *. by destruct (dev_entry line). }
  unfold body. rewrite Htrack. rewrite Htrack in Hmode.
  rewrite Hmode, Hstart. cbn zeta.
  destruct (closed_on_line (Py.strip line)); simpl; split_and!; try done.
  intros _.
  pose proof (lookup_lt_Some _ _ _ Hl) as Hlt.
  pose proof (consume_bounds (drop (S (i st)) lines) (i st) (paren_delta line))
    as Hb.
  destruct (consume_running (drop (S (i st)) lines) (i st) (paren_delta line))
    as [Hrun Hstop].
  rewrite length_drop in Hb, Hstop.
  eexists. split; [reflexivity|]. split; [lia|]. split.
  - intros k Hk. rewrite (span_cons _ _ k _ Hl) by lia. simpl.
    apply Hrun. lia.
  - rewrite (span_cons _ _ (consume _ _ _) _ Hl) by lia. simpl.
    destruct Hstop as [Hstop|Hstop]; [by left | right; lia].
Qed.

Lemma target_statement_removal_witness :
  let st := steps 1 removal_sample initial in
  let st' := body removal_sample "console.log(" st in
  new_lines st' = ["a();"] /\ removed st' = 1 /\ i st' = 5%nat.
Proof.
  pose proof (target_statement_removal removal_sample
                (steps 1 removal_sample initial) "console.log("
                eq_refl eq_refl eq_refl) as H.
  cbv zeta in H. destruct H as (Hnew & Hrem & _ & _ & _ & Hmulti).
  destruct (Hmulti eq_refl) as (j & Hj & _ & _ & _).
  split; [exact Hnew|]. split; [exact Hrem|].
  vm_compute. reflexivity.
Defined.

(** C10 -- Guard entry takes precedence over target detection: a line
    reached in normal mode that matches the console pattern and is also a
    guard-entry line puts the scanner in guarded-block mode (the mode test
    succeeds, the depth starting from one), is appended to the output
    unchanged, and leaves the count as it was; the cursor moves one line
    on, and the mode stays on after the line unless its braces bring the
    depth to zero or below. *)
Theorem guard_entry_precedes_target
    (lines : list string) (st : state) (line : string) :
  lines !! i st = Some line ->
  in_dev_block st = false ->
  console_start (Py.strip line) = true ->
  dev_entry line = true ->
  let st' := body lines line st in
  guarded_at line st = true
  /\ new_lines st' = new_lines st ++ [line]
  /\ removed st' = removed st
  /\ i st' = S (i st)
  /\ dev_block_depth st' = 1 + brace_delta line
  /\ in_dev_block st' = negb (1 + brace_delta line <=? 0).
Proof.
  intros _ _ _ Hentry.
  unfold guarded_at, body, track_dev. rewrite Hentry. simpl. done.
Qed.

Lemma guard_entry_precedes_target_witness :
  let line := "console.log(__DEV__ ? 'if' : 'x')" in
  let st' := body [line] line initial in
  console_start (Py.strip line) = true
  /\ new_lines st' = [line] /\ removed st' = 0 /\ in_dev_block st' = true.
Proof.
  pose proof (guard_entry_precedes_target
                ["console.log(__DEV__ ? 'if' : 'x')"] initial
                "console.log(__DEV__ ? 'if' : 'x')"
                eq_refl eq_refl eq_refl eq_refl) as H.
  cbv zeta in H. destruct H as (_ & Hnew & Hrem & _ & _ & Hmode).
  split; [reflexivity|]. split; [exact Hnew|]. split; [exact Hrem|].
  exact Hmode.
Defined.

(** ** Runs in guarded-block mode *)

Lemma drop_lookup_head (lines : list string) n l rest :
  drop n lines = l :: rest -> lines !! n = Some l /\ drop (S n) lines = rest.
Proof.
  intros Hd.
  assert (lines !! n = Some l) as Hl.
  { rewrite <- (Nat.add_0_r n), <- lookup_drop, Hd. done. }
  split; [done|]. rewrite (drop_S _ _ _ Hl) in Hd. congruence.
Qed.

Lemma loop_steps_done n lines st :
  lines !! i (steps n lines st) = None ->
  forall fuel, (n <= fuel)%nat -> loop fuel lines st = Some (steps n lines st).
Proof.
  revert st. induction n as [|n IH]; intros st Hend fuel Hfuel; simpl in *.
  - destruct fuel; simpl; by rewrite Hend.
  - destruct (lines !! i st) as [line|] eqn:Hl.
    + destruct fuel as [|fuel]; [lia|]. simpl. rewrite Hl. apply IH; [done | lia].
    + destruct fuel; simpl; by rewrite Hl.
Qed.

Lemma brace_total_take_S l rest k :
  brace_total (take (S k) (l :: rest)) = brace_delta l + brace_total (take k rest).
Proof. reflexivity. Qed.

(** In guarded-block mode, with no guard-entry line ahead and a depth that
    the braces ahead never bring to zero, every line is kept and the depth
    follows the brace balance. *)
Lemma guarded_run k lines st rest :
  drop (i st) lines = rest ->
  in_dev_block st = true ->
  Forall (fun l => dev_entry l = false) rest ->
  (forall m : nat, 0 < dev_block_depth st + brace_total (take m rest)) ->
  (k <= length rest)%nat ->
  let s := steps k lines st in
  i s = (i st + k)%nat
  /\ in_dev_block s = true
  /\ dev_block_depth s = dev_block_depth st + brace_total (take k rest)
  /\ new_lines s = new_lines st ++ take k rest
  /\ removed s = removed st.
Proof.
  revert st rest. induction k as [|k IH]; intros st rest Hd Hdev Hne Hpos Hk.
  - simpl. rewrite take_0, app_nil_r. simpl. split_and!; try done; lia.
  - destruct rest as [|l rest]; [simpl in Hk; lia|].
    destruct (drop_lookup_head _ _ _ _ Hd) as [Hl Hd'].
    inversion Hne as [|? ? Hl_ne Hrest_ne]; subst.
    pose proof (Hpos 1%nat) as H1. rewrite brace_total_take_S, take_0 in H1.
    simpl in H1.
    assert (body lines l st =
            {| i := S (i st); in_dev_block := true;
               dev_block_depth := dev_block_depth st + brace_delta l;
               new_lines := new_lines st ++ [l]; removed := removed st |})
      as Hbody.
    { unfold body, track_dev. rewrite Hl_ne, Hdev. f_equal.
      apply negb_true_iff, Z.leb_gt. lia. }
    cbn zeta. simpl steps. rewrite Hl, Hbody.
    destruct (IH {| i := S (i st); in_dev_block := true;
                    dev_block_depth := dev_block_depth st + brace_delta l;
                    new_lines := new_lines st ++ [l]; removed := removed st |}
                 (drop (S (i st)) lines))
      as (Hi & Hm & Hdep & Hnew & Hrem);
      cbn [i in_dev_block dev_block_depth new_lines removed]; try done.
    + intros m. specialize (Hpos (S m)). rewrite brace_total_take_S in Hpos. lia.
    + simpl in Hk. lia.
    + cbn [i in_dev_block dev_block_depth new_lines removed] in *.
      rewrite Hi, Hm, Hdep, Hnew, Hrem, brace_total_take_S.
      rewrite <- app_assoc. simpl. split_and!; try done; lia.
Qed.

Lemma never_below_sound acc ls :
  0 <= acc -> never_below acc ls = true ->
  forall k : nat, 0 <= acc + brace_total (take k ls).
Proof.
  revert acc. induction ls as [|l ls IH]; intros acc Hacc Hnb k.
  - rewrite take_nil. simpl. lia.
  - destruct k as [|k]; [simpl; lia|].
    simpl in Hnb. apply andb_prop in Hnb as [H1 H2]. apply Z.leb_le in H1.
    rewrite brace_total_take_S. specialize (IH _ H1 H2 k). lia.
Qed.

Lemma never_below_no_surplus ls :
  never_below 0 ls = true -> no_surplus_close ls.
Proof. intros H k. by apply (never_below_sound 0 ls). Qed.

(** C6 (as amended) -- A guard-entry line traps the scanner: when, from a
    guard-entry line to the end of the input, no further line is itself a
    guard-entry line and the brace balance counted from the entry line
    never drops below zero, then after each of these lines the scanner is
    in guarded-block mode with a depth one above that balance; every one
    of them is kept, the count does not move, and the loop ends in
    guarded-block mode. *)
Theorem guard_entry_traps_scanner
    (lines : list string) (st : state) (entry : string) (rest : list string) :
  drop (i st) lines = entry :: rest ->
  dev_entry entry = true ->
  Forall (fun l => dev_entry l = false) rest ->
  no_surplus_close (entry :: rest) ->
  (forall k : nat, (1 <= k <= length (entry :: rest))%nat ->
     let s := steps k lines st in
     i s = (i st + k)%nat
     /\ in_dev_block s = true
     /\ dev_block_depth s = 1 + brace_total (take k (entry :: rest))
     /\ new_lines s = new_lines st ++ take k (entry :: rest)
     /\ removed s = removed st)
  /\ (forall fuel : nat, (length (entry :: rest) <= fuel)%nat ->
        exists s,
          loop fuel lines st = Some s
          /\ in_dev_block s = true
          /\ new_lines s = new_lines st ++ entry :: rest
          /\ removed s = removed st).
Proof.
  intros Hd Hentry Hne Hbal.
  destruct (drop_lookup_head _ _ _ _ Hd) as [Hl Hd'].
  pose proof (Hbal 1%nat) as H1.
  rewrite brace_total_take_S, take_0 in H1. simpl in H1.
  set (st1 := {| i := S (i st); in_dev_block := true;
                 dev_block_depth := 1 + brace_delta entry;
                 new_lines := new_lines st ++ [entry];
                 removed := removed st |}).
  assert (body lines entry st = st1) as Hbody.
  { unfold body, track_dev, st1. rewrite Hentry. simpl. f_equal.
    apply negb_true_iff, Z.leb_gt. lia. }
  assert (forall k, (1 <= k <= length (entry :: rest))%nat ->
     let s := steps k lines st in
     i s = (i st + k)%nat
     /\ in_dev_block s = true
     /\ dev_block_depth s = 1 + brace_total (take k (entry :: rest))
     /\ new_lines s = new_lines st ++ take k (entry :: rest)
     /\ removed s = removed st) as Hsteps.
  { intros [|k] Hk; [lia|]. cbn zeta. simpl steps. rewrite Hl, Hbody.
    destruct (guarded_run k lines st1 rest) as (Hi & Hm & Hdep & Hnew & Hrem);
      try done.
    - intros m. specialize (Hbal (S m)). rewrite brace_total_take_S in Hbal.
      simpl. lia.
    - simpl in Hk. lia.
    - cbn [st1 i in_dev_block dev_block_depth new_lines removed] in *.
      rewrite Hi, Hm, Hdep, Hnew, Hrem, brace_total_take_S, <- app_assoc.
      simpl. split_and!; try done; lia. }
  split; [exact Hsteps|].
  intros fuel Hfuel.
  destruct (Hsteps (length (entry :: rest)) ltac:(simpl; lia))
    as (Hi & Hm & _ & Hnew & Hrem).
  exists (steps (length (entry :: rest)) lines st).
  rewrite firstn_all in Hnew. split_and!; try done.
  apply loop_steps_done; [|done].
  apply lookup_ge_None_2. rewrite Hi.
  apply (f_equal length) in Hd. rewrite length_drop in Hd. lia.
Qed.

Lemma guard_entry_traps_scanner_witness :
  exists s,
    loop 4 guarded_sample initial = Some s
    /\ in_dev_block s = true
    /\ new_lines s = guarded_sample
    /\ removed s = 0.
Proof.
  destruct (guard_entry_traps_scanner guarded_sample initial
              "if (__DEV__) {"
              ["  console.log('debug');"; "}"; "const z = 3;"]) as [_ Hloop].
  - reflexivity.
  - reflexivity.
  - repeat constructor.
  - apply never_below_no_surplus. reflexivity.
  - apply (Hloop 4%nat). simpl. lia.
Defined.

(** C6, as stated, fails: in [reentry_sample] the lines from the
    guard-entry line on never have a closing brace in surplus, and the
    first two lines are a brace-balanced guarded block; yet the marker on
    the fourth line sets the depth back to one, guarded-block mode ends at
    the sixth line and the console call after it is removed. *)
Lemma guard_trap_fails_on_reentry :
  ~ (forall (lines : list string) (st : state) (entry : string)
            (rest : list string),
        drop (i st) lines = entry :: rest ->
        dev_entry entry = true ->
        (exists m : nat,
            (1 <= m)%nat /\ brace_total (take m (entry :: rest)) = 0) ->
        no_surplus_close (entry :: rest) ->
        forall fuel : nat, (length (entry :: rest) <= fuel)%nat ->
          exists s,
            loop fuel lines st = Some s
            /\ in_dev_block s = true
            /\ new_lines s = new_lines st ++ entry :: rest
            /\ removed s = removed st).
Proof.
  intros Hclaim.
  destruct (Hclaim reentry_sample initial "if (__DEV__) {"
              (drop 1 reentry_sample)) with (fuel := 7%nat)
    as (s & Hloop & Hmode & _).
  - reflexivity.
  - reflexivity.
  - exists 2%nat. split; [lia | reflexivity].
  - apply never_below_no_surplus. reflexivity.
  - simpl. lia.
  - vm_compute in Hloop. injection Hloop as <-. discriminate Hmode.
Qed.

(** The scan of [reentry_sample] keeps the first six lines and removes
    the console call. *)
Example reentry_sample_scan :
  scan_lines reentry_sample = Some (take 6 reentry_sample, 1).
Proof. vm_compute. reflexivity. Qed.

(** ** Guard-entry lines inside a guarded block *)

(** In guarded-block mode a line that is no guard-entry line moves the
    depth by its brace balance, is kept, and ends the mode exactly when
    the new depth is zero or below. *)
Lemma guarded_step (lines : list string) (st : state) (line : string) :
  in_dev_block st = true ->
  dev_entry line = false ->
  body lines line st =
  {| i := S (i st);
     in_dev_block := negb (dev_block_depth st + brace_delta line <=? 0);
     dev_block_depth := dev_block_depth st + brace_delta line;
     new_lines := new_lines st ++ [line];
     removed := removed st |}.
Proof.
  intros Hdev Hne. unfold body, track_dev. by rewrite Hne, Hdev.
Qed.

(** C2 -- On [nested_sample] the scanner is in guarded-block mode with
    depth 3 when it reads the third line; the line has one opening brace
    and no closing one, and the depth after it is 2, not 4: the marker on
    the line sets the counter back to one before the braces are added. *)
Theorem nested_guard_entry_resets_depth :
  let st := steps 2 nested_sample initial in
  let line := "    if (__DEV__ && item.debug) {" in
  nested_sample !! i st = Some line
  /\ in_dev_block st = true
  /\ dev_block_depth st = 3
  /\ brace_delta line = 1
  /\ dev_block_depth (body nested_sample line st) = 2.
Proof. vm_compute. split_and!; reflexivity. Qed.

(** C3 -- On [nested_sample] the console call on the seventh line lies
    strictly inside the guarded block opened by the first line (the brace
    balance from the first line is positive up to the seventh line and
    returns to zero at the eighth), and yet the scan drops that line and
    counts one removal. *)
Theorem nested_guard_drops_guarded_call :
  let call := "  console.log('done');" in
  dev_entry "if (__DEV__) {" = true
  /\ nested_sample !! 6%nat = Some call
  /\ console_start (Py.strip call) = true
  /\ (forall k : nat, (k < 7)%nat -> 0 < brace_total (span nested_sample 0 k))
  /\ brace_total (span nested_sample 0 7) = 0
  /\ scan_lines nested_sample
     = Some (take 6 nested_sample ++ drop 7 nested_sample, 1)
  /\ call ∉ take 6 nested_sample ++ drop 7 nested_sample.
Proof.
  cbn zeta. split_and!; try (vm_compute; reflexivity).
  - intros k Hk. do 7 (destruct k as [|k]; [vm_compute; reflexivity|]). lia.
  - vm_compute. intros H. repeat (inversion H as [|? ? ? H']; subst; clear H; rename H' into H).
Qed.

(** ** The per-file driver *)

Lemma any_in_true patterns filepath pattern :
  pattern ∈ patterns ->
  Py.contains pattern filepath = true ->
  any_in patterns filepath = true.
Proof.
  induction 1 as [p ps | p q ps Hin IH]; intros Hc; simpl.
  - by rewrite Hc.
  - destruct (Py.contains q filepath); [done | by apply IH].
Qed.

(** C7 -- Skip-list totality: for a path in which one of the skip
    patterns occurs, [process_file] returns 0 and hands back the world it
    was given: the disk is the same and nothing is added to the log, so
    the file is neither read nor written. *)
Theorem skipped_file_untouched (filepath pattern : string) (w : world) :
  pattern ∈ SKIP_PATTERNS ->
  substring_of pattern filepath ->
  should_skip filepath = true
  /\ process_file filepath w = Some (0, w).
Proof.
  intros Hin Hsub.
  assert (should_skip filepath = true) as Hskip.
  { unfold should_skip. eapply any_in_true; [done|]. by apply contains_spec. }
  split; [done|]. unfold process_file. by rewrite Hskip.
Qed.

Lemma skipped_file_untouched_witness :
  process_file "src/tests/util.ts" test_file_world = Some (0, test_file_world).
Proof.
  apply (skipped_file_untouched "src/tests/util.ts" "/tests/" test_file_world).
  - unfold SKIP_PATTERNS. repeat constructor.
  - exists "src", "util.ts". reflexivity.
Defined.

(** C8 -- Per-file error recovery: when the read of a file raises, or its
    write does, [process_file] returns 0 and prints one line that names
    the file and the cause; the error does not propagate, and the batch
    goes on with the next file, its totals unchanged. *)
Theorem file_error_recovered
    (filepath e : string) (evs : list event) (w : world) :
  should_skip filepath = false ->
  io_failure w filepath e evs ->
  let w' := record (evs ++ [Print (error_message filepath e)]) w in
  process_file filepath w = Some (0, w')
  /\ substring_of filepath (error_message filepath e)
  /\ substring_of e (error_message filepath e)
  /\ (forall (paths : list string) (total_removed files_modified : Z),
         process_all (filepath :: paths) total_removed files_modified w
         = process_all paths total_removed files_modified w').
Proof.
  intros Hskip Hfail. cbn zeta.
  assert (process_file filepath w
          = Some (0, record (evs ++ [Print (error_message filepath e)]) w))
    as Hpf.
  { unfold process_file. rewrite Hskip.
    destruct Hfail as [e Hread | content new_content n e Hread Hscan Hn Hwrite].
    - by rewrite Hread.
    - rewrite Hread, Hscan. simpl.
      apply Z.ltb_lt in Hn. by rewrite Hn, Hwrite. }
  split_and!.
  - exact Hpf.
  - exists "  Error processing ", (": " +:+ e). reflexivity.
  - exists ("  Error processing " +:+ filepath +:+ ": "), EmptyString.
    unfold error_message.
    assert (forall s, s +:+ EmptyString = s) as Hnil
      by (induction s as [|c s IH]; [done | by rewrite append_cons, IH]).
    assert (forall a b c, (a +:+ b) +:+ c = a +:+ b +:+ c) as Hassoc
      by (induction a as [|x a IH]; intros b c;
          [done | by rewrite !append_cons, IH]).
    by rewrite Hnil, !Hassoc.
  - intros paths total_removed files_modified. simpl. rewrite Hpf. done.
Qed.

Lemma file_error_recovered_witness :
  process_file "src/app.ts" read_only_world
  = Some (0, record [ReadText "src/app.ts"; WriteText "src/app.ts" "";
                     Print "  Error processing src/app.ts: Permission denied"]
               read_only_world).
Proof.
  apply (file_error_recovered "src/app.ts" "Permission denied"
           [ReadText "src/app.ts"; WriteText "src/app.ts" ""] read_only_world).
  - reflexivity.
  - apply (write_fails read_only_world "src/app.ts" "console.log(1);" "" 1).
    + reflexivity.
    + reflexivity.
    + lia.
    + reflexivity.
Defined.

(** ** More on the skip filter *)

Lemma append_empty_r s : s +:+ EmptyString = s.
Proof. induction s as [|c s IH]; [done | by rewrite append_cons, IH]. Qed.

Lemma append_assoc_s a b c : (a +:+ b) +:+ c = a +:+ b +:+ c.
Proof.
  induction a as [|x a IH]; [done | by rewrite !append_cons, IH].
Qed.

Lemma substring_of_trans a b c :
  substring_of a b -> substring_of b c -> substring_of a c.
Proof.
  intros (p1 & q1 & ->) (p2 & q2 & ->).
  exists (p2 +:+ p1), (q1 +:+ q2). by rewrite !append_assoc_s.
Qed.

Lemma any_in_iff patterns filepath :
  any_in patterns filepath = true
  <-> exists pattern, pattern ∈ patterns /\ Py.contains pattern filepath = true.
Proof.
  split.
  - induction patterns as [|p ps IH]; simpl; [done|].
    destruct (Py.contains p filepath) eqn:Hc.
    + intros _. exists p. split; [by left | done].
    + intros (q & Hq & Hcq)%IH. exists q. split; [by right | done].
  - intros (p & Hin & Hc). by eapply any_in_true.
Qed.

(** X1 -- [should_skip] answers [True] exactly for the paths in which one
    of the eight skip patterns occurs somewhere as a substring. *)
Theorem should_skip_iff (filepath : string) :
  should_skip filepath = true
  <-> exists pattern,
        pattern ∈ SKIP_PATTERNS /\ substring_of pattern filepath.
Proof.
  unfold should_skip. rewrite any_in_iff.
  split; intros (p & Hin & Hc); exists p; split; try done;
    by apply contains_spec.
Qed.

(** X2 -- Skipping is inherited: a path that contains a skipped path (a
    file below a skipped directory, a longer name around a skipped one) is
    skipped as well. *)
Theorem should_skip_extends (filepath pre post : string) :
  should_skip filepath = true ->
  should_skip (pre +:+ filepath +:+ post) = true.
Proof.
  unfold should_skip. rewrite !any_in_iff. intros (p & Hin & Hc).
  exists p. split; [done|]. apply contains_spec.
  eapply substring_of_trans; [by apply contains_spec | by exists pre, post].
Qed.

Lemma should_skip_extends_witness :
  should_skip ("/repo/src/" +:+ "node_modules/pkg/index.ts" +:+ "") = true.
Proof.
  apply (should_skip_extends "node_modules/pkg/index.ts" "/repo/src/" "").
  reflexivity.
Defined.

(** ** More on the scan of a text *)

Lemma join_cons l ls :
  ls <> [] -> Py.join NL (l :: ls) = l +:+ String LF (Py.join NL ls).
Proof. destruct ls; [done|]. reflexivity. Qed.

Lemma join_split s : Py.join NL (Py.split LF s) = s.
Proof.
  induction s as [|c s IH]; [done|]. simpl.
  destruct (Ascii.eqb c LF) eqn:Hc.
  - apply Ascii.eqb_eq in Hc as ->.
    rewrite join_cons by apply split_nonempty. by rewrite IH.
  - pose proof (split_nonempty LF s) as Hne.
    destruct (Py.split LF s) as [|l ls]; [done|].
    destruct ls as [|l' ls].
    + simpl in *. by rewrite IH.
    + rewrite join_cons in IH by done. rewrite join_cons by done.
      rewrite append_cons. by rewrite IH.
Qed.

Lemma scan_from_no_console dev depth ls :
  Forall (fun l => is_console_line l = false) ls ->
  scan_from 0 dev depth ls = (ls, 0).
Proof.
  intros Hall. revert dev depth.
  induction Hall as [|l ls Hl _ IH]; intros dev depth; [done|].
  unfold is_console_line in Hl. simpl. rewrite Hl, !IH. simpl.
  by destruct (if dev_entry l then true else dev).
Qed.

Lemma no_statements_all_kept cs :
  statements cs = 0 -> flat_map chunk_kept cs = flat_map chunk_lines cs.
Proof.
  induction cs as [|[l|l more] cs IH]; simpl; intros Hn; [done | |].
  - f_equal. apply IH. lia.
  - pose proof (statements_nonneg cs). lia.
Qed.

Lemma some_statement_some_dropped cs :
  0 < statements cs -> (0 < length (dropped_lines cs))%nat.
Proof.
  unfold dropped_lines.
  induction cs as [|[l|l more] cs IH]; simpl; intros Hn; [lia | | lia].
  apply IH. lia.
Qed.

Lemma kept_lacks_newline content k dev depth :
  Forall (fun l => lacks LF l = true)
    (scan_from k dev depth (Py.split LF content)).1.
Proof.
  eapply sublist_Forall; [apply scan_from_sublist | apply split_lacks].
Qed.

(** A second pass over the text a first pass returned removes nothing. *)
Lemma remove_console_statements_again content text n :
  remove_console_statements content = Some (text, n) ->
  remove_console_statements text = Some (text, 0).
Proof.
  rewrite remove_console_statements_eq. intros [= <- _].
  destruct (scan_from 0 false 0 (Py.split LF content)).1 as [|l kept] eqn:Hk.
  - vm_compute. reflexivity.
  - rewrite remove_console_statements_eq.
    pose proof (kept_lacks_newline content 0 false 0) as Hlacks.
    rewrite Hk in Hlacks. rewrite split_join by done.
    rewrite <- Hk, scan_from_idem. done.
Qed.

Lemma console_count_nonneg ls : 0 <= console_count ls.
Proof.
  induction ls as [|l ls IH]; simpl; [lia|].
  destruct (is_console_line l); lia.
Qed.

Lemma console_count_app ls1 ls2 :
  console_count (ls1 ++ ls2) = console_count ls1 + console_count ls2.
Proof. induction ls1 as [|l ls1 IH]; simpl; [lia | rewrite IH; lia]. Qed.

Lemma console_count_le_length ls : console_count ls <= Z.of_nat (length ls).
Proof.
  induction ls as [|l ls IH]; simpl length; simpl console_count; [lia|].
  destruct (is_console_line l); lia.
Qed.

Lemma statements_le_console_count cs :
  Forall chunk_starts_ok cs ->
  statements cs <= console_count (flat_map chunk_lines cs).
Proof.
  induction 1 as [|[l|l more] cs Hok _ IH]; simpl; [lia | |].
  - destruct (is_console_line l); lia.
  - simpl in Hok. unfold is_console_line. rewrite Hok.
    rewrite console_count_app. pose proof (console_count_nonneg more). lia.
Qed.

(** X3 -- A text none of whose lines starts a console call comes back
    exactly as it was, with a count of zero, whatever guard markers it
    holds. *)
Theorem unchanged_without_console_line (content : string) :
  Forall (fun l => is_console_line l = false) (Py.split LF content) ->
  remove_console_statements content = Some (content, 0).
Proof.
  intros Hall. rewrite remove_console_statements_eq.
  rewrite scan_from_no_console by done. simpl. by rewrite join_split.
Qed.

Lemma unchanged_without_console_line_witness :
  remove_console_statements (lines_text ["if (__DEV__) {"; "  f();"; "}"; ""])
  = Some (lines_text ["if (__DEV__) {"; "  f();"; "}"; ""], 0).
Proof.
  apply unchanged_without_console_line. vm_compute. repeat constructor.
Defined.

(** X4 -- The count tells whether the text changed: it is zero exactly
    when the returned text is the input text. *)
Theorem zero_count_iff_unchanged (content text : string) (n : Z) :
  remove_console_statements content = Some (text, n) ->
  n = 0 <-> text = content.
Proof.
  rewrite remove_console_statements_eq. intros [= <- <-].
  set (lines := Py.split LF content).
  destruct (scan_from_chunks lines 0 false 0) as (cs & Hin & Hout & Hn & _).
  rewrite drop_0 in Hin. split.
  - intros H0. rewrite Hn in H0.
    rewrite Hout, (no_statements_all_kept _ H0), <- Hin. apply join_split.
  - intros Htext.
    destruct (decide ((scan_from 0 false 0 lines).2 = 0)) as [|Hne]; [done|].
    exfalso.
    pose proof (scan_from_count_nonneg 0 false 0 lines) as Hge.
    assert (0 < statements cs) as Hpos by lia.
    apply some_statement_some_dropped in Hpos.
    pose proof (chunks_length cs) as Hlen. rewrite <- Hin, <- Hout in Hlen.
    destruct (scan_from 0 false 0 lines).1 as [|l kept] eqn:Hk.
    + simpl in Htext. subst lines. rewrite <- Htext in Hne.
      by vm_compute in Hne.
    + pose proof (kept_lacks_newline content 0 false 0) as Hlacks.
      fold lines in Hlacks. rewrite Hk in Hlacks.
      apply (f_equal (Py.split LF)) in Htext.
      rewrite split_join in Htext by done. fold lines in Htext.
      rewrite <- Htext in Hlen. lia.
Qed.

Lemma zero_count_iff_unchanged_witness :
  (1 = 0 <-> "b();" = lines_text ["console.log(1);"; "b();"]).
Proof.
  apply (zero_count_iff_unchanged
           (lines_text ["console.log(1);"; "b();"]) "b();" 1).
  vm_compute. reflexivity.
Defined.

(** X5 -- The count never exceeds the number of lines that start a
    console call, and so never the number of lines. *)
Theorem removed_bounded_by_console_lines (content : string) :
  exists (text : string) (n : Z),
    remove_console_statements content = Some (text, n)
    /\ 0 <= n <= console_count (Py.split LF content)
    /\ console_count (Py.split LF content)
       <= Z.of_nat (length (Py.split LF content)).
Proof.
  eexists _, _. split; [apply remove_console_statements_eq|].
  set (lines := Py.split LF content).
  destruct (scan_from_chunks lines 0 false 0) as (cs & Hin & _ & Hn & Hok).
  rewrite drop_0 in Hin. split_and!.
  - apply scan_from_count_nonneg.
  - rewrite Hn, Hin. by apply statements_le_console_count.
  - apply console_count_le_length.
Qed.

(** ** Shapes of console calls *)

(** X6 -- An unclosed call swallows the rest of the input: at a line
    outside guarded-block mode that starts a console call and does not end
    with a closing parenthesis, if the parenthesis balance summed from
    that line stays positive up to every line but the last, the loop ends
    right there: all remaining lines are dropped, nothing more is kept and
    the count grows by one. *)
Theorem unclosed_call_swallows_rest
    (lines : list string) (st : state) (line : string) :
  lines !! i st = Some line ->
  guarded_at line st = false ->
  console_start (Py.strip line) = true ->
  closed_on_line (Py.strip line) = false ->
  (forall k : nat, (i st <= k)%nat -> (S k < length lines)%nat ->
      0 < paren_total (span lines (i st) k)) ->
  forall fuel : nat, (1 <= fuel)%nat ->
    exists st',
      loop fuel lines st = Some st'
      /\ i st' = length lines
      /\ new_lines st' = new_lines st
      /\ removed st' = removed st + 1.
Proof.
  intros Hl Hmode Hstart Hopen Hpos fuel Hfuel.
  assert (track_dev line st = st) as Htrack.
  { unfold guarded_at, track_dev in *. by destruct (dev_entry line). }
  unfold guarded_at in Hmode. rewrite Htrack in Hmode.
  pose proof (lookup_lt_Some _ _ _ Hl) as Hlt.
  pose proof (consume_bounds (drop (S (i st)) lines) (i st) (paren_delta line))
    as Hb.
  destruct (consume_running (drop (S (i st)) lines) (i st) (paren_delta line))
    as [_ Hstop].
  rewrite length_drop in Hb, Hstop.
  set (j := consume (drop (S (i st)) lines) (i st) (paren_delta line)) in *.
  assert (S j = length lines) as Hend.
  { destruct Hstop as [Hstop|Hstop]; [|lia].
    destruct (decide (S j < length lines)%nat) as [Hin|]; [|lia].
    specialize (Hpos j ltac:(lia) Hin).
    rewrite (span_cons _ _ j _ Hl) in Hpos by lia. simpl in Hpos. lia. }
  destruct fuel as [|fuel]; [lia|]. simpl. rewrite Hl.
  unfold body. rewrite Htrack, Hmode, Hstart, Hopen. fold j.
  eexists. split.
  - destruct fuel; simpl; rewrite lookup_ge_None_2; simpl; try done; lia.
  - simpl. done.
Qed.

Lemma unclosed_call_swallows_rest_witness :
  exists st',
    loop 1 ["console.log("; "  a,"; "  b"] initial = Some st'
    /\ i st' = 3%nat /\ new_lines st' = [] /\ removed st' = 0 + 1.
Proof.
  apply (unclosed_call_swallows_rest
           ["console.log("; "  a,"; "  b"] initial "console.log(");
    try reflexivity.
  intros k _ Hk. simpl in Hk.
  destruct k as [|[|k]]; [vm_compute; reflexivity.. | lia].
Defined.

(** X7 -- A call whose parentheses balance on its own line is dropped
    alone, whatever follows the call on that line (a comment, more code):
    the cursor moves one line on and the count grows by one. *)
Theorem balanced_call_dropped_alone
    (lines : list string) (st : state) (line : string) :
  guarded_at line st = false ->
  console_start (Py.strip line) = true ->
  paren_delta line <= 0 ->
  body lines line st =
  {| i := S (i st); in_dev_block := in_dev_block st;
     dev_block_depth := dev_block_depth st;
     new_lines := new_lines st; removed := removed st + 1 |}.
Proof.
  intros Hmode Hstart Hbal.
  assert (track_dev line st = st) as Htrack.
  { unfold guarded_at, track_dev in *. by destruct (dev_entry line). }
  unfold guarded_at in Hmode. rewrite Htrack in Hmode.
  unfold body. rewrite Htrack, Hmode, Hstart.
  destruct (closed_on_line (Py.strip line)); [done|].
  assert (consume (drop (S (i st)) lines) (i st) (paren_delta line) = i st)
    as ->; [|done].
  destruct (drop (S (i st)) lines); simpl; [done|].
  by rewrite (proj2 (Z.ltb_ge 0 (paren_delta line))).
Qed.

Lemma balanced_call_dropped_alone_witness :
  let line := "console.log(x); // trace" in
  i (body [line; "next();"] line initial) = 1%nat
  /\ removed (body [line; "next();"] line initial) = 1.
Proof.
  cbn zeta.
  rewrite (balanced_call_dropped_alone
             ["console.log(x); // trace"; "next();"] initial
             "console.log(x); // trace" eq_refl eq_refl).
  - split; reflexivity.
  - vm_compute. discriminate.
Defined.

Lemma scan_from_no_marker k depth ls :
  Forall (fun l => dev_entry l = false) ls ->
  Forall (fun l => is_console_line l = false) (scan_from k false depth ls).1.
Proof.
  intros Hall. revert k.
  induction Hall as [|l ls Hl _ IH]; intros k; [by destruct k|].
  destruct k as [|k]; [|apply IH]. simpl. rewrite Hl.
  destruct (console_start (Py.strip l)) eqn:Hc; simpl; [apply IH|].
  constructor; [done | apply IH].
Qed.

(** X8 -- Without guard markers no console call survives: when no line
    of the input is a guard-entry line, no line of the output starts a
    console call. *)
Theorem no_marker_no_console_left (content : string) :
  Forall (fun l => dev_entry l = false) (Py.split LF content) ->
  exists (kept : list string) (n : Z),
    scan_lines (Py.split LF content) = Some (kept, n)
    /\ remove_console_statements content = Some (Py.join NL kept, n)
    /\ Forall (fun l => is_console_line l = false) kept.
Proof.
  intros Hall.
  exists (scan_from 0 false 0 (Py.split LF content)).1,
         (scan_from 0 false 0 (Py.split LF content)).2.
  split_and!.
  - rewrite scan_lines_scan_from.
    by destruct (scan_from 0 false 0 (Py.split LF content)).
  - apply remove_console_statements_eq.
  - by apply scan_from_no_marker.
Qed.

Lemma no_marker_no_console_left_witness :
  exists (kept : list string) (n : Z),
    scan_lines (Py.split LF (lines_text removal_sample)) = Some (kept, n)
    /\ remove_console_statements (lines_text removal_sample)
       = Some (Py.join NL kept, n)
    /\ Forall (fun l => is_console_line l = false) kept.
Proof.
  apply (no_marker_no_console_left (lines_text removal_sample)).
  vm_compute. repeat constructor.
Defined.

(** X9 -- One-line calls are filtered out: when no line is a guard-entry
    line and every line that starts a console call also ends with a
    closing parenthesis (with or without a semicolon), the output is the
    input without those lines, in order, and the count is their number. *)
Theorem one_line_calls_filtered (lines : list string) :
  Forall (fun l => dev_entry l = false) lines ->
  Forall (fun l => is_console_line l = true ->
                   closed_on_line (Py.strip l) = true) lines ->
  scan_lines lines
  = Some (List.filter (fun l => negb (is_console_line l)) lines,
          console_count lines).
Proof.
  intros Hne Hclosed. rewrite scan_lines_scan_from. f_equal.
  generalize 0 at 1. revert Hclosed.
  induction Hne as [|l ls Hl _ IH]; intros Hclosed depth; [done|].
  inversion Hclosed as [|? ? Hcl Hrest]; subst.
  specialize (IH Hrest depth).
  simpl. rewrite Hl. unfold is_console_line in *.
  destruct (console_start (Py.strip l)) eqn:Hc; simpl.
  - rewrite (Hcl eq_refl), IH. simpl. f_equal. lia.
  - rewrite IH. done.
Qed.

Lemma one_line_calls_filtered_witness :
  scan_lines ["a();"; "  console.warn(x);"; "console.info (y)"; "b();"]
  = Some (["a();"; "b();"], 2).
Proof.
  apply (one_line_calls_filtered
           ["a();"; "  console.warn(x);"; "console.info (y)"; "b();"]).
  - vm_compute. repeat constructor.
  - repeat constructor; intros _; reflexivity.
Defined.

(** ** The line-start pattern *)

Lemma lstrip_split s :
  exists ws, all_space ws = true /\ s = ws +:+ Py.lstrip s.
Proof.
  induction s as [|c s (ws & Hws & IH)]; [by exists EmptyString|].
  simpl. destruct (Py.isspace c) eqn:Hc.
  - exists (String c ws). simpl. rewrite Hc, Hws, append_cons, <- IH. done.
  - by exists EmptyString.
Qed.

Lemma lstrip_space_app ws t :
  all_space ws = true -> Py.lstrip (ws +:+ t) = Py.lstrip t.
Proof.
  induction ws as [|c ws IH]; [done|]. cbn [all_space].
  intros [Hc Hws]%andb_prop. rewrite append_cons. cbn [Py.lstrip].
  rewrite Hc. auto.
Qed.

Lemma lstrip_head c t :
  Py.isspace c = false -> Py.lstrip (String c t) = String c t.
Proof. intros Hc. simpl. by rewrite Hc. Qed.

Lemma after_literal_spec p s r :
  Py.after_literal p s = Some r <-> s = p +:+ r.
Proof.
  revert s. induction p as [|a p IH]; intros s; simpl.
  - rewrite append_nil. split; congruence.
  - destruct s as [|b s]; rewrite append_cons; [split; congruence|].
    destruct (Ascii.eqb a b) eqn:Hab.
    + apply Ascii.eqb_eq in Hab as ->. rewrite IH. split; congruence.
    + apply Ascii.eqb_neq in Hab. split; congruence.
Qed.

Lemma console_start_inv (s : string) :
  console_start s = true ->
  exists (ws1 m ws2 rest : string),
    all_space ws1 = true /\ m ∈ METHODS /\ all_space ws2 = true
    /\ s = ws1 +:+ "console." +:+ m +:+ ws2 +:+ "(" +:+ rest.
Proof.
  unfold console_start.
  destruct (lstrip_split s) as (ws1 & Hws1 & Hs).
  destruct (Py.after_literal "console." (Py.lstrip s)) as [r|] eqn:Hr;
    [|done].
  apply after_literal_spec in Hr.
  intros (m & Hm & Hf)%existsb_exists.
  destruct (Py.after_literal m r) as [r'|] eqn:Hr'; [|done].
  apply after_literal_spec in Hr'.
  apply prefix_spec in Hf as [rest Hrest].
  destruct (lstrip_split r') as (ws2 & Hws2 & Hr2).
  exists ws1, m, ws2, rest. split_and!; try done.
  - by apply list_elem_of_In.
  - rewrite <- Hrest, <- Hr2, <- Hr', <- Hr. exact Hs.
Qed.

Lemma console_start_intro (ws1 m ws2 rest : string) :
  all_space ws1 = true -> m ∈ METHODS -> all_space ws2 = true ->
  console_start (ws1 +:+ "console." +:+ m +:+ ws2 +:+ "(" +:+ rest) = true.
Proof.
  intros Hws1 Hm Hws2. unfold console_start.
  rewrite lstrip_space_app by done.
  rewrite (append_cons "c"), lstrip_head by reflexivity.
  rewrite <- (append_cons "c").
  rewrite (proj2 (after_literal_spec "console." _ _) eq_refl).
  apply existsb_exists. exists m. split; [by apply list_elem_of_In|].
  rewrite (proj2 (after_literal_spec m _ _) eq_refl).
  rewrite lstrip_space_app by done.
  rewrite (append_cons "("), lstrip_head by reflexivity.
  apply prefix_spec. by exists rest.
Qed.

(** X10 -- The line-start test accepts exactly the strings made of white
    space, the literal [console.], one of the five method names, white
    space, an opening parenthesis and anything after it. *)
Theorem console_start_iff (s : string) :
  console_start s = true
  <-> exists (ws1 m ws2 rest : string),
        all_space ws1 = true /\ m ∈ METHODS /\ all_space ws2 = true
        /\ s = ws1 +:+ "console." +:+ m +:+ ws2 +:+ "(" +:+ rest.
Proof.
  split.
  - apply console_start_inv.
  - intros (ws1 & m & ws2 & rest & Hws1 & Hm & Hws2 & ->).
    by apply console_start_intro.
Qed.

Lemma count_lstrip c s :
  Py.isspace c = false -> Py.count c (Py.lstrip s) = Py.count c s.
Proof.
  intros Hc. induction s as [|a s IH]; [done|]. simpl.
  destruct (Py.isspace a) eqn:Ha; [|done].
  rewrite IH. destruct (Ascii.eqb a c) eqn:Hac; [|done].
  apply Ascii.eqb_eq in Hac. congruence.
Qed.

Lemma count_rstrip c s :
  Py.isspace c = false -> Py.count c (Py.rstrip s) = Py.count c s.
Proof.
  intros Hc. induction s as [|a s IH]; [done|]. simpl.
  destruct (Py.rstrip s) as [|b r] eqn:Hr.
  - rewrite <- IH. destruct (Py.isspace a) eqn:Ha; [|done]. simpl.
    destruct (Ascii.eqb a c) eqn:Hac; [|done].
    apply Ascii.eqb_eq in Hac. congruence.
  - rewrite <- IH. done.
Qed.

(** X11 -- Trimming a line changes neither its parenthesis balance nor
    its brace balance, so the balance the scanner takes from the raw line
    is that of the trimmed line it tested. *)
Theorem balance_unchanged_by_strip (line : string) :
  paren_delta (Py.strip line) = paren_delta line
  /\ brace_delta (Py.strip line) = brace_delta line.
Proof.
  unfold paren_delta, brace_delta, Py.strip.
  rewrite !count_rstrip, !count_lstrip by reflexivity. done.
Qed.

Lemma rstrip_split t : exists ws, t = Py.rstrip t +:+ ws.
Proof.
  induction t as [|c t (ws & IH)]; [by exists EmptyString|]. simpl.
  destruct (Py.rstrip t) as [|b r] eqn:Hr.
  - rewrite append_nil in IH. destruct (Py.isspace c).
    + by exists (String c t).
    + exists ws. rewrite append_cons, append_nil. congruence.
  - exists ws. rewrite append_cons. congruence.
Qed.

Lemma rstrip_app_nonspace a c b :
  Py.isspace c = false ->
  Py.rstrip (a +:+ String c b) = a +:+ String c (Py.rstrip b).
Proof.
  intros Hc. induction a as [|x a IH].
  - rewrite !append_nil. simpl. rewrite Hc. by destruct (Py.rstrip b).
  - rewrite !append_cons. cbn [Py.rstrip]. rewrite IH.
    destruct a; [rewrite append_nil | rewrite append_cons]; done.
Qed.

Lemma lstrip_idem s : Py.lstrip (Py.lstrip s) = Py.lstrip s.
Proof.
  induction s as [|c s IH]; [done|]. simpl.
  destruct (Py.isspace c) eqn:Hc; [done|]. simpl. by rewrite Hc.
Qed.

(** X12 -- Trimming before the match changes nothing: a raw line passes
    the line-start test exactly when its trimmed form does. *)
Theorem strip_before_match_redundant (line : string) :
  is_console_line line = console_start line.
Proof.
  unfold is_console_line, Py.strip.
  assert (console_start (Py.lstrip line) = console_start line) as <-.
  { unfold console_start. by rewrite lstrip_idem. }
  generalize (Py.lstrip line). clear line. intros t.
  apply eq_true_iff_eq. split.
  - intros (ws1 & m & ws2 & rest & Hws1 & Hm & Hws2 & Ht)%console_start_inv.
    destruct (rstrip_split t) as (ws & Hsplit).
    rewrite Hsplit, Ht, !append_assoc_s.
    by apply console_start_intro.
  - intros (ws1 & m & ws2 & rest & Hws1 & Hm & Hws2 & ->)%console_start_inv.
    assert (ws1 +:+ "console." +:+ m +:+ ws2 +:+ "(" +:+ rest
            = (ws1 +:+ "console." +:+ m +:+ ws2) +:+ String "(" rest) as ->
      by (by rewrite !append_assoc_s).
    rewrite (rstrip_app_nonspace _ "(" rest eq_refl), !append_assoc_s.
    by apply (console_start_intro ws1 m ws2 (Py.rstrip rest)).
Qed.

(** ** More on the per-file driver *)

Lemma write_text_frame d path data d' q :
  write_text d path data = Ok d' -> q <> path -> d' !! q = d !! q.
Proof.
  unfold write_text. intros Hw Hq.
  destruct (d !! path) as [f|]; [destruct (write_error f)|];
    inversion Hw; subst; by rewrite lookup_insert_ne.
Qed.

Lemma write_text_read_back d path data d' content :
  read_text d path = Ok content ->
  write_text d path data = Ok d' ->
  read_text d' path = Ok data /\ write_text d' path data = Ok d'.
Proof.
  unfold read_text, write_text. intros Hr Hw.
  destruct (d !! path) as [f|]; [|done].
  destruct (read_error f) eqn:Hre; [done|].
  destruct (write_error f); [done|]. inversion Hw; subst.
  rewrite !lookup_insert_eq. simpl. split; [done|].
  by rewrite insert_insert_eq.
Qed.

(** The ways a call of [process_file] can go. *)
Lemma process_file_cases filepath w :
  (should_skip filepath = true /\ process_file filepath w = Some (0, w))
  \/ (exists e,
        process_file filepath w
        = Some (0, record [ReadText filepath;
                           Print (error_message filepath e)] w))
  \/ (exists content new_content e,
        read_text (disk w) filepath = Ok content
        /\ process_file filepath w
           = Some (0, record [ReadText filepath;
                              WriteText filepath new_content;
                              Print (error_message filepath e)] w))
  \/ (exists content,
        should_skip filepath = false
        /\ read_text (disk w) filepath = Ok content
        /\ remove_console_statements content = Some (content, 0)
        /\ process_file filepath w = Some (0, record [ReadText filepath] w))
  \/ (exists content new_content n d',
        should_skip filepath = false
        /\ read_text (disk w) filepath = Ok content
        /\ remove_console_statements content = Some (new_content, n)
        /\ 0 < n
        /\ write_text (disk w) filepath new_content = Ok d'
        /\ process_file filepath w
           = Some (n, {| disk := d';
                         log := log w ++
                           [ReadText filepath;
                            WriteText filepath new_content;
                            Print (removed_message filepath n)] |})).
Proof.
  unfold process_file.
  destruct (should_skip filepath) eqn:Hskip; [by left|]. right.
  destruct (read_text (disk w) filepath) as [content|e] eqn:Hread;
    [|left; by exists e]. right.
  pose proof (remove_console_statements_eq content) as Hscan.
  set (new_content := Py.join NL (scan_from 0 false 0 (Py.split LF content)).1)
    in *.
  set (n := (scan_from 0 false 0 (Py.split LF content)).2) in *.
  rewrite Hscan. simpl.
  destruct (0 <? n) eqn:Hn.
  - apply Z.ltb_lt in Hn.
    destruct (write_text (disk w) filepath new_content) as [d'|e] eqn:Hwrite.
    + right. right. exists content, new_content, n, d'. by split_and!.
    + left. by exists content, new_content, e.
  - apply Z.ltb_ge in Hn. right. left.
    pose proof (scan_from_count_nonneg 0 false 0 (Py.split LF content)).
    assert (n = 0) as Hn0 by (unfold n; lia).
    exists content. split_and!; try done; rewrite ?Hn0; try done.
    rewrite Hscan. f_equal. f_equal; [|done].
    unfold new_content.
    destruct (scan_from_chunks (Py.split LF content) 0 false 0)
      as (cs & Hin & Hout & Hcnt & _).
    rewrite drop_0 in Hin. fold n in Hcnt. rewrite Hn0 in Hcnt.
    rewrite Hout, (no_statements_all_kept cs) by done.
    rewrite <- Hin. apply join_split.
Qed.

Lemma process_file_summary filepath w :
  exists (n : Z) (w' : world),
    process_file filepath w = Some (n, w')
    /\ 0 <= n
    /\ (forall q : string, q <> filepath -> disk w' !! q = disk w !! q)
    /\ log w `prefix_of` log w'
    /\ (n = 0 -> disk w' = disk w)
    /\ (should_skip filepath = true -> w' = w).
Proof.
  destruct (process_file_cases filepath w)
    as [[Hs H] | [[e H] | [(c & nc & e & _ & H) | [(c & Hs & _ & _ & H)
        | (c & nc & n & d' & Hs & _ & _ & Hn & Hw & H)]]]];
    eexists _, _; (split; [exact H|]); simpl.
  all: split_and!; try done; try lia; try congruence.
  all: try (by eexists).
  all: try (intros q Hq; by eapply write_text_frame).
  all: unfold process_file in H; destruct (should_skip filepath) eqn:Hskip;
    intros; congruence.
Qed.


(** X14 -- A positive count means the file was rewritten: the file could
    be read, the scan of its text gave that count, and reading the file
    afterwards yields the text the scan returned. *)
Theorem process_file_rewrites (filepath : string) (w w' : world) (n : Z) :
  process_file filepath w = Some (n, w') ->
  0 < n ->
  exists content new_content : string,
    read_text (disk w) filepath = Ok content
    /\ remove_console_statements content = Some (new_content, n)
    /\ read_text (disk w') filepath = Ok new_content.
Proof.
  intros Hpf Hn.
  destruct (process_file_cases filepath w)
    as [[_ H] | [[e H] | [(c & nc & e & _ & H) | [(c & _ & _ & _ & H)
        | (c & nc & m & d' & _ & Hr & Hs & _ & Hw & H)]]]];
    rewrite H in Hpf; inversion Hpf; subst; try lia.
  exists c, nc. split_and!; try done. simpl.
  by destruct (write_text_read_back _ _ _ _ _ Hr Hw).
Qed.

Lemma process_file_rewrites_witness :
  exists content new_content : string,
    read_text (disk app_world) "src/app.ts" = Ok content
    /\ remove_console_statements content = Some (new_content, 1)
    /\ read_text
         (<[ "src/app.ts" := File (lines_text ["a();"; "b();"]) None None ]>
            (disk app_world)) "src/app.ts"
       = Ok new_content.
Proof.
  assert (0 < 1) as Hpos by lia.
  exact (process_file_rewrites "src/app.ts" app_world
           {| disk := <[ "src/app.ts" :=
                           File (lines_text ["a();"; "b();"]) None None ]>
                        (disk app_world);
              log := [ReadText "src/app.ts";
                      WriteText "src/app.ts" (lines_text ["a();"; "b();"]);
                      Print (removed_message "src/app.ts" 1)] |} 1
           eq_refl Hpos).
Defined.

(** X15 -- Processing a file a second time does nothing: after a call
    that removed statements, a further call on the same file returns 0,
    reads the file and neither writes nor prints. *)
Theorem process_file_twice (filepath : string) (w w' : world) (n : Z) :
  process_file filepath w = Some (n, w') ->
  0 < n ->
  process_file filepath w' = Some (0, record [ReadText filepath] w').
Proof.
  intros Hpf Hn.
  destruct (process_file_cases filepath w)
    as [[_ H] | [[e H] | [(c & nc & e & _ & H) | [(c & _ & _ & _ & H)
        | (c & nc & m & d' & Hskip & Hr & Hs & _ & Hw & H)]]]];
    rewrite H in Hpf; inversion Hpf; subst; try lia.
  destruct (write_text_read_back _ _ _ _ _ Hr Hw) as [Hr' _].
  unfold process_file. rewrite Hskip. simpl. rewrite Hr'.
  rewrite (remove_console_statements_again _ _ _ Hs). done.
Qed.

Lemma process_file_twice_witness :
  let w' := {| disk := <[ "src/app.ts" :=
                            File (lines_text ["a();"; "b();"]) None None ]>
                         (disk app_world);
               log := [ReadText "src/app.ts";
                       WriteText "src/app.ts" (lines_text ["a();"; "b();"]);
                       Print (removed_message "src/app.ts" 1)] |} in
  process_file "src/app.ts" w' = Some (0, record [ReadText "src/app.ts"] w').
Proof.
  cbv zeta.
  apply (process_file_twice "src/app.ts" app_world _ 1).
  - reflexivity.
  - lia.
Defined.

(** X16 -- A file none of whose lines starts a console call is read and
    left alone: the call returns 0 and logs the read, no write and no
    print. *)
Theorem process_file_clean (filepath content : string) (w : world) :
  should_skip filepath = false ->
  read_text (disk w) filepath = Ok content ->
  Forall (fun l => is_console_line l = false) (Py.split LF content) ->
  process_file filepath w = Some (0, record [ReadText filepath] w).
Proof.
  intros Hskip Hread Hall. unfold process_file.
  rewrite Hskip, Hread, remove_console_statements_eq.
  by rewrite scan_from_no_console.
Qed.

Lemma process_file_clean_witness :
  process_file "src/app.ts"
    {| disk := {[ "src/app.ts" := File "a();" None None ]}; log := [] |}
  = Some (0, record [ReadText "src/app.ts"]
               {| disk := {[ "src/app.ts" := File "a();" None None ]};
                  log := [] |}).
Proof.
  apply (process_file_clean "src/app.ts" "a();").
  - reflexivity.
  - reflexivity.
  - vm_compute. repeat constructor.
Defined.

(** ** The batch and the whole run *)

Lemma process_all_summary paths total_removed files_modified w :
  exists (t f : Z) (w' : world),
    process_all paths total_removed files_modified w = Some (t, f, w')
    /\ 0 <= f - files_modified <= Z.of_nat (length paths)
    /\ f - files_modified <= t - total_removed
    /\ (forall q : string,
           q ∉ paths \/ should_skip q = true -> disk w' !! q = disk w !! q)
    /\ log w `prefix_of` log w'.
Proof.
  revert total_removed files_modified w.
  induction paths as [|p ps IH]; intros t0 f0 w.
  - exists t0, f0, w. simpl. split_and!; try done; lia.
  - destruct (process_file_summary p w)
      as (n & w1 & Hpf & Hn & Hframe & Hlog & _ & Hskip).
    cbn [process_all]. rewrite Hpf. simpl.
    assert (forall q, q ∉ p :: ps \/ should_skip q = true ->
                      disk w1 !! q = disk w !! q) as Hq1.
    { intros q [Hq|Hq].
      - apply Hframe. intros ->. apply Hq. by left.
      - destruct (decide (q = p)) as [->|Hne]; [|by apply Hframe].
        by rewrite (Hskip Hq). }
    assert (forall q, q ∉ p :: ps \/ should_skip q = true ->
                      q ∉ ps \/ should_skip q = true) as Hq2.
    { intros q [Hq|Hq]; [left | by right]. intros Hin. apply Hq. by right. }
    destruct (0 <? n) eqn:Hpos.
    + apply Z.ltb_lt in Hpos.
      destruct (IH (t0 + n) (f0 + 1) w1)
        as (t & f & w' & Hall & Hf & Ht & Hdisk & Hlog').
      exists t, f, w'. split; [done|]. simpl length.
      split_and!; try lia.
      * intros q Hq. rewrite (Hdisk q (Hq2 q Hq)). by apply Hq1.
      * by etrans.
    + destruct (IH t0 f0 w1) as (t & f & w' & Hall & Hf & Ht & Hdisk & Hlog').
      exists t, f, w'. split; [done|]. simpl length.
      split_and!; try lia.
      * intros q Hq. rewrite (Hdisk q (Hq2 q Hq)). by apply Hq1.
      * by etrans.
Qed.

Lemma process_all_append ps qs total_removed files_modified w :
  process_all (ps ++ qs) total_removed files_modified w
  = '(t, f, w') ← process_all ps total_removed files_modified w;
    process_all qs t f w'.
Proof.
  revert total_removed files_modified w.
  induction ps as [|p ps IH]; intros t0 f0 w; [done|].
  cbn [app process_all].
  destruct (process_file p w) as [[n w1]|]; [|done]. simpl.
  destruct (0 <? n); apply IH.
Qed.

(** X17 -- The batch composes: processing a list of paths followed by a
    second list is processing the first and then the second with the
    totals and the world the first left; so the two loops of [main] over
    the [.ts] and the [.tsx] files amount to one pass over both lists. *)
Theorem main_single_pass
    (mark src_dir : string) (tree ps qs : list string)
    (total_removed files_modified : Z) (w : world) :
  process_all (ps ++ qs) total_removed files_modified w
  = ('(t, f, w') ← process_all ps total_removed files_modified w;
     process_all qs t f w')
  /\ main mark src_dir true tree w
     = ('(t, f, w') ←
          process_all (rglob tree ".ts" ++ rglob tree ".tsx") 0 0
            (record [Print (scanning_message src_dir);
                     Print skipping_message] w);
        Some (0, record [Print (summary_message mark t f)] w')).
Proof.
  split; [apply process_all_append|].
  unfold main. simpl. rewrite process_all_append.
  destruct (process_all (rglob tree ".ts") 0 0 _) as [[[t1 f1] w1]|];
    [|done].
  simpl. by destruct (process_all (rglob tree ".tsx") t1 f1 w1) as [[[? ?] ?]|].
Qed.

(** X18 -- The batch always returns, and its totals add up: the number of
    modified files grows by at most one per path, and the number of
    removed statements grows by at least the number of files modified
    (a file counts as modified only when something was removed). *)
Theorem process_all_accounting
    (paths : list string) (total_removed files_modified : Z) (w : world) :
  exists (t f : Z) (w' : world),
    process_all paths total_removed files_modified w = Some (t, f, w')
    /\ 0 <= f - files_modified <= Z.of_nat (length paths)
    /\ f - files_modified <= t - total_removed.
Proof.
  destruct (process_all_summary paths total_removed files_modified w)
    as (t & f & w' & Hall & Hf & Ht & _).
  exists t, f, w'. split; [exact Hall|]. split; [exact Hf | exact Ht].
Qed.

(** X19 -- The batch touches only the paths it is given and the skip
    filter lets through: a path that is not in the list, or that the skip
    filter rejects, has the same file on disk after the batch as before. *)
Theorem process_all_frame
    (paths : list string) (total_removed files_modified t f : Z)
    (w w' : world) (q : string) :
  process_all paths total_removed files_modified w = Some (t, f, w') ->
  q ∉ paths \/ should_skip q = true ->
  disk w' !! q = disk w !! q.
Proof.
  intros Hall Hq.
  destruct (process_all_summary paths total_removed files_modified w)
    as (t1 & f1 & w1 & Hall1 & _ & _ & Hdisk & _).
  rewrite Hall in Hall1. inversion Hall1; subst. by apply Hdisk.
Qed.

Lemma process_all_frame_witness :
  disk (record [ReadText "src/app.ts"; WriteText "src/app.ts" "";
                Print (error_message "src/app.ts" "Permission denied")]
          read_only_world) !! "src/tests/util.ts"
  = disk read_only_world !! "src/tests/util.ts".
Proof.
  apply (process_all_frame ["src/tests/util.ts"; "src/app.ts"] 0 0 0 0
           read_only_world _ "src/tests/util.ts").
  - reflexivity.
  - right. reflexivity.
Defined.

Lemma endswith_ts_not_tsx p :
  Py.endswith ".ts" p = true -> Py.endswith ".tsx" p = false.
Proof.
  induction p as [|c p IH]; [done|]. cbn [Py.endswith].
  intros [Heq | Hend]%orb_prop.
  - apply String.eqb_eq in Heq. injection Heq as -> ->. reflexivity.
  - rewrite (IH Hend), orb_false_r. apply String.eqb_neq. intros Heq.
    injection Heq as _ ->. discriminate Hend.
Qed.

(** X20 -- The two walks of [main] never yield the same path: a path
    taken by the [.ts] pass is not taken by the [.tsx] pass. *)
Theorem rglob_passes_disjoint (tree : list string) (p : string) :
  p ∈ rglob tree ".ts" -> p ∉ rglob tree ".tsx".
Proof.
  unfold rglob. rewrite !list_elem_of_In, !filter_In.
  intros [_ Hts] [_ Htsx]. rewrite (endswith_ts_not_tsx p Hts) in Htsx. done.
Qed.

Lemma rglob_passes_disjoint_witness :
  "src/a.ts" ∉ rglob ["src/a.ts"; "src/b.tsx"; "src/c.js"] ".tsx".
Proof.
  apply (rglob_passes_disjoint ["src/a.ts"; "src/b.tsx"; "src/c.js"]).
  vm_compute. constructor.
Defined.


(** X22 -- A whole run leaves alone every file that is not below the
    source root, that the skip filter rejects, or whose name ends neither
    in [.ts] nor in [.tsx]. *)
Theorem main_frame
    (mark src_dir : string) (src_exists : bool) (tree : list string)
    (w w' : world) (status : Z) (q : string) :
  main mark src_dir src_exists tree w = Some (status, w') ->
  q ∉ tree \/ should_skip q = true
  \/ (Py.endswith ".ts" q = false /\ Py.endswith ".tsx" q = false) ->
  disk w' !! q = disk w !! q.
Proof.
  unfold main. intros Hmain Hq.
  destruct src_exists; simpl in Hmain; [|by inversion Hmain].
  set (w0 := record _ w) in Hmain.
  destruct (process_all_summary (rglob tree ".ts") 0 0 w0)
    as (t1 & f1 & w1 & H1 & _ & _ & Hd1 & _).
  rewrite H1 in Hmain. simpl in Hmain.
  destruct (process_all_summary (rglob tree ".tsx") t1 f1 w1)
    as (t2 & f2 & w2 & H2 & _ & _ & Hd2 & _).
  rewrite H2 in Hmain. simpl in Hmain. inversion Hmain; subst. simpl.
  assert (forall suffix, Py.endswith suffix q = false \/ q ∉ tree ->
                         q ∉ rglob tree suffix) as Hout.
  { intros suffix Hs. unfold rglob. rewrite list_elem_of_In, filter_In.
    intros [Hin Hend]. destruct Hs as [Hs|Hs]; [congruence|].
    apply Hs. by apply list_elem_of_In. }
  rewrite Hd2, Hd1; [done | |].
  - destruct Hq as [Hq | [Hq | [Hq _]]]; [left; apply Hout | by right
                                         | left; apply Hout]; auto.
  - destruct Hq as [Hq | [Hq | [_ Hq]]]; [left; apply Hout | by right
                                         | left; apply Hout]; auto.
Qed.

Lemma main_frame_witness :
  match main "" "/repo/src" true ["src/tests/util.ts"; "src/app.ts"]
          read_only_world with
  | Some (_, w') =>
      disk w' !! "src/tests/util.ts"
      = disk read_only_world !! "src/tests/util.ts"
  | None => False
  end.
Proof.
  destruct (main "" "/repo/src" true ["src/tests/util.ts"; "src/app.ts"]
              read_only_world) as [[status w']|] eqn:Hmain.
  - apply (main_frame "" "/repo/src" true ["src/tests/util.ts"; "src/app.ts"]
             read_only_world w' status "src/tests/util.ts" Hmain).
    right. left. reflexivity.
  - vm_compute in Hmain. discriminate Hmain.
Defined.
